(** * BM1370 serial driver: a shallow embedding of [bm1370.py]

    The Python class [BM1370] frames command and job packets, counts the
    chips of a chain, assigns chip addresses, searches PLL dividers and
    encodes the difficulty mask.  Python integers are modelled by [Z],
    byte buffers by [list Z] with the range check of [bytearray] written
    out, Python floats by binary64 values of [SpecFloat], and the serial
    callbacks by an explicit transport state (frames written, scripted
    reads). *)

From Stdlib Require Import ZArith Bool String Ascii List Lia.
From Stdlib Require Import Floats.SpecFloat.
From Stdlib Require Finite.
From Stdlib Require Import QArith Qabs.
Import ListNotations.
Open Scope Z_scope.

(** ** Outcomes of Python code *)

Inductive exn : Type :=
  | ValueError
  | OverflowError
  | IndexError
  | ZeroDivisionError
  | Exception (msg : string).

(** [Blocked] is a call that does not return: a loop that is still running
    when the scripted reads of the transport are used up. *)
Inductive outcome (A : Type) : Type :=
  | Ok (a : A)
  | Raise (e : exn)
  | Blocked.

Arguments Ok {A} a.
Arguments Raise {A} e.
Arguments Blocked {A}.

Definition bindO {A B} (o : outcome A) (k : A -> outcome B) : outcome B :=
  match o with
  | Ok a => k a
  | Raise e => Raise e
  | Blocked => Blocked
  end.

Declare Scope py_scope.
Delimit Scope py_scope with py.
Notation "x <- c ;; k" := (bindO c (fun x => k))
  (at level 100, c at next level, right associativity) : py_scope.

(** ** Constants of the module *)

Definition TYPE_JOB : Z := 0x20.
Definition TYPE_CMD : Z := 0x40.

Definition GROUP_SINGLE : Z := 0x00.
Definition GROUP_ALL : Z := 0x10.

Definition CMD_JOB : Z := 0x01.
Definition CMD_SETADDRESS : Z := 0x00.
Definition CMD_WRITE : Z := 0x01.
Definition CMD_READ : Z := 0x02.
Definition CMD_INACTIVE : Z := 0x03.

Definition MISC_CONTROL : Z := 0x18.

(** ** [bytearray] *)

Definition is_byte (v : Z) : bool := (0 <=? v) && (v <? 256).

(** [bytearray(n)]: [n] zero bytes. *)
Definition bytearray (n : nat) : list Z := repeat 0 n.

(** [buf[i] = v]: the value must be in [range(0, 256)] and the index inside
    the buffer. *)
Definition setitem (buf : list Z) (i : nat) (v : Z) : outcome (list Z) :=
  if negb (is_byte v) then Raise ValueError
  else if (i <? length buf)%nat
       then Ok (firstn i buf ++ v :: skipn (S i) buf)
       else Raise IndexError.

(** [buf[lo:hi] = data] with [lo <= hi <= len(buf)]: every element of [data]
    must be a byte; the slice is replaced by [data]. *)
Definition setslice (buf : list Z) (lo hi : nat) (data : list Z)
  : outcome (list Z) :=
  if forallb is_byte data
  then Ok (firstn lo buf ++ data ++ skipn hi buf)
  else Raise ValueError.

(** [buf[lo:hi]]. *)
Definition getslice (buf : list Z) (lo hi : nat) : list Z :=
  firstn (hi - lo) (skipn lo buf).

(** ** The transport

    [serial_tx_func] and [serial_rx_func] are callbacks installed by
    [ll_init].  [tx] records the buffers passed to [serial_tx_func], oldest
    first; [rx] scripts the results of the coming calls of [serial_rx_func]:
    [None] is Python's [None], [Some bs] a [bytes] object ([Some []] is
    [b'']).  [logs] records the calls of [logging]. *)

Inductive log_record : Type :=
  | LogError
  | LogInfo.

Record io : Type := mkIO {
  tx : list (list Z);
  rx : list (option (list Z));
  logs : list log_record
}.

Definition M (A : Type) : Type := io -> outcome A * io.

Definition ret {A} (a : A) : M A := fun s => (Ok a, s).

Definition bindM {A B} (m : M A) (k : A -> M B) : M B :=
  fun s =>
    match m s with
    | (Ok a, s') => k a s'
    | (Raise e, s') => (Raise e, s')
    | (Blocked, s') => (Blocked, s')
    end.

Definition raise {A} (e : exn) : M A := fun s => (Raise e, s).

Definition lift {A} (o : outcome A) : M A := fun s => (o, s).

Declare Scope io_scope.
Delimit Scope io_scope with io.
Notation "x <-- c ;; k" := (bindM c (fun x => k))
  (at level 100, c at next level, right associativity) : io_scope.
Notation "c ;;; k" := (bindM c (fun _ => k))
  (at level 100, right associativity) : io_scope.

Definition serial_tx_func (buf : list Z) : M unit :=
  fun s => (Ok tt, mkIO (tx s ++ [buf]) (rx s) (logs s)).

(** The arguments (length, timeout) do not select the result: the script
    says what each call returns. *)
Definition serial_rx_func (length : Z) (timeout_ms : Z)
  : M (option (list Z)) :=
  fun s =>
    match rx s with
    | [] => (Blocked, s)
    | r :: rest => (Ok r, mkIO (tx s) rest (logs s))
    end.

Definition logging (r : log_record) : M unit :=
  fun s => (Ok tt, mkIO (tx s) (rx s) (logs s ++ [r])).

(** [for x in xs: body x]. *)
Fixpoint for_each {A} (xs : list A) (body : A -> M unit) : M unit :=
  match xs with
  | [] => ret tt
  | x :: rest => bindM (body x) (fun _ => for_each rest body)
  end.

(** [range(n)] as Python integers. *)
Definition range (n : Z) : list Z := map Z.of_nat (seq 0 (Z.to_nat n)).

(** [l[i] = v] on a Python list; the driver only assigns at constant
    indices inside its six-element lists. *)
Definition list_setitem (l : list Z) (i : nat) (v : Z) : list Z :=
  if (i <? length l)%nat then firstn i l ++ v :: skipn (S i) l else l.

(** ** Python floats (IEEE 754 binary64) *)

Definition prec : Z := 53.
Definition emax : Z := 1024.

Definition float : Type := spec_float.

(** Conversion of a Python integer in mixed arithmetic. *)
Definition float_of_int (z : Z) : float := binary_normalize prec emax z 0 false.

Definition fmul : float -> float -> float := SFmul prec emax.
Definition fdiv : float -> float -> float := SFdiv prec emax.
Definition fsub : float -> float -> float := SFsub prec emax.
Definition fabs : float -> float := SFabs.
Definition fltb : float -> float -> bool := SFltb.
Definition fleb : float -> float -> bool := SFleb.

(** The integer nearest to [m * 2^e], ties to the even one. *)
Definition round_half_even (m : positive) (e : Z) : Z :=
  match e with
  | Zneg k =>
      let d := Z.pow_pos 2 k in
      let q := Zpos m / d in
      let r := Zpos m mod d in
      match 2 * r ?= d with
      | Lt => q
      | Gt => q + 1
      | Eq => if Z.even q then q else q + 1
      end
  | _ => Zpos m * 2 ^ e
  end.

(** [round(x)] of a float, without [ndigits]. *)
Definition py_round (x : float) : outcome Z :=
  match x with
  | S754_nan => Raise ValueError
  | S754_infinity _ => Raise OverflowError
  | S754_zero _ => Ok 0
  | S754_finite s m e => Ok (cond_Zopp s (round_half_even m e))
  end.

(** [int(x)] of a float: truncation towards zero. *)
Definition py_int (x : float) : outcome Z :=
  match x with
  | S754_nan => Raise ValueError
  | S754_infinity _ => Raise OverflowError
  | S754_zero _ => Ok 0
  | S754_finite s m e =>
      Ok (cond_Zopp s
            match e with
            | Zneg k => Zpos m / Z.pow_pos 2 k
            | _ => Zpos m * 2 ^ e
            end)
  end.

(** [a / b] on two Python integers: the quotient as a float.  Below 2^53
    both operands convert exactly, so the division of the converted
    operands is the correctly rounded quotient that Python returns. *)
Definition py_truediv (a b : Z) : outcome float :=
  if b =? 0 then Raise ZeroDivisionError
  else Ok (fdiv (float_of_int a) (float_of_int b)).

(** ** Strings *)

Definition hex_digit (n : Z) : ascii :=
  match n with
  | 0 => "0" | 1 => "1" | 2 => "2" | 3 => "3" | 4 => "4" | 5 => "5"
  | 6 => "6" | 7 => "7" | 8 => "8" | 9 => "9" | 10 => "a" | 11 => "b"
  | 12 => "c" | 13 => "d" | 14 => "e" | _ => "f"
  end%char.

(** [binascii.hexlify(data).decode('utf8')] on a [bytes] object. *)
Fixpoint hexlify (data : list Z) : string :=
  match data with
  | [] => EmptyString
  | b :: rest =>
      String (hex_digit (b / 16)) (String (hex_digit (b mod 16)) (hexlify rest))
  end.

(** [needle in hay]. *)
Definition str_in (needle hay : string) : bool :=
  match index 0 needle hay with
  | Some _ => true
  | None => false
  end.

(** Binary digits of a positive number, most significant first. *)
Fixpoint bin_digits (p : positive) (acc : list ascii) : list ascii :=
  match p with
  | xH => "1"%char :: acc
  | xO q => bin_digits q ("0"%char :: acc)
  | xI q => bin_digits q ("1"%char :: acc)
  end.

Definition zfill (width : nat) (digits : list ascii) : list ascii :=
  repeat "0"%char (width - length digits) ++ digits.

(** ['{:08b}'.format(n)]: at least eight characters, zeros after the
    sign. *)
Definition format_08b (n : Z) : list ascii :=
  match n with
  | 0 => zfill 8 []
  | Zpos p => zfill 8 (bin_digits p [])
  | Zneg p => "-"%char :: zfill 7 (bin_digits p [])
  end.

(** [int(s, 2)] on the strings that reversing [format_08b] can give:
    binary digits, or a string with a minus sign after a digit, which
    [int] refuses. *)
Fixpoint int_base2_from (acc : Z) (s : list ascii) : outcome Z :=
  match s with
  | [] => Ok acc
  | c :: rest =>
      if Ascii.eqb c "0" then int_base2_from (2 * acc) rest
      else if Ascii.eqb c "1" then int_base2_from (2 * acc + 1) rest
      else Raise ValueError
  end.

Definition int_base2 (s : list ascii) : outcome Z :=
  match s with
  | [] => Raise ValueError
  | _ => int_base2_from 0 s
  end.

(** ** The driver, over the two checksum functions of [crc_functions] *)

Section Driver.

Variable crc5 : list Z -> Z.
Variable crc16_false : list Z -> Z.

(** The buffer that [send] builds before it hands it to [serial_tx_func]
    (lines 37 to 53 of the method). *)
Definition send_buf (header : Z) (data : list Z) : outcome (list Z) :=
  let packet_type :=
    if negb (Z.land header TYPE_JOB =? 0) then TYPE_JOB else TYPE_CMD in
  let data_len := length data in
  let total_length :=
    if packet_type =? TYPE_JOB then (data_len + 6)%nat else (data_len + 5)%nat in
  let buf := bytearray total_length in
  (buf <- setitem buf 0 0x55 ;;
   buf <- setitem buf 1 0xAA ;;
   buf <- setitem buf 2 header ;;
   buf <- setitem buf 3
            (if packet_type =? TYPE_JOB
             then Z.of_nat data_len + 4 else Z.of_nat data_len + 3) ;;
   buf <- setslice buf 4 (4 + data_len) data ;;
   if packet_type =? TYPE_JOB then
     let crc16_total := crc16_false (getslice buf 2 (4 + data_len)) in
     buf <- setitem buf (4 + data_len)
              (Z.land (Z.shiftr crc16_total 8) 0xFF) ;;
     setitem buf (5 + data_len) (Z.land crc16_total 0xFF)
   else
     setitem buf (4 + data_len) (crc5 (getslice buf 2 (4 + data_len))))%py.

Definition send (header : Z) (data : list Z) : M unit :=
  (buf <-- lift (send_buf header data) ;;
   serial_tx_func buf)%io.

Definition send_simple (data : list Z) : M unit :=
  (buf <-- lift (if forallb is_byte data then Ok data else Raise ValueError) ;;
   serial_tx_func buf)%io.

Definition send_chain_inactive : M unit :=
  send (Z.lor (Z.lor TYPE_CMD GROUP_ALL) CMD_INACTIVE) [0x00; 0x00].

Definition set_chip_address (chipAddr : Z) : M unit :=
  send (Z.lor (Z.lor TYPE_CMD GROUP_SINGLE) CMD_SETADDRESS) [chipAddr; 0x00].

Definition set_version_mask (version_mask : Z) : M unit :=
  let versions_to_roll := Z.shiftr version_mask 13 in
  let version_byte0 := Z.land (Z.shiftr versions_to_roll 8) 0xFF in
  let version_byte1 := Z.land versions_to_roll 0xFF in
  let version_cmd := [0x00; 0xA4; 0x90; 0x00; version_byte0; version_byte1] in
  send (Z.lor (Z.lor TYPE_CMD GROUP_ALL) CMD_WRITE) version_cmd.

(** *** [send_hash_frequency] *)

Record pll_state : Type := mkPLL {
  fb_divider : Z;
  post_divider1 : Z;
  post_divider2 : Z;
  ref_divider : Z;
  min_difference : float;
  newf : float
}.

Definition max_diff : float := float_of_int 1.

(** The state before the loops: no divider yet, [min_difference = 10],
    [newf = 200.0]. *)
Definition pll_init : pll_state :=
  mkPLL 0 0 0 0 (float_of_int 10) (float_of_int 200).

(** One pass through the body of the innermost loop (lines 86 to 97). *)
Definition pll_body (target_freq : float) (refdiv postdiv1 postdiv2 : Z)
    (st : pll_state) : outcome pll_state :=
  if postdiv1 >=? postdiv2 then
    (temp_fb_divider <-
       py_round
         (fdiv (fmul (fmul (float_of_int (postdiv1 * postdiv2)) target_freq)
                     (float_of_int refdiv))
               (float_of_int 25)) ;;
     if (0xa0 <=? temp_fb_divider) && (temp_fb_divider <=? 0xef) then
       let temp_freq :=
         fdiv (fmul (float_of_int 25) (float_of_int temp_fb_divider))
              (float_of_int (refdiv * postdiv2 * postdiv1)) in
       let freq_diff := fabs (fsub target_freq temp_freq) in
       if fltb freq_diff (min_difference st) && fltb freq_diff max_diff then
         Ok (mkPLL temp_fb_divider postdiv1 postdiv2 refdiv freq_diff temp_freq)
       else Ok st
     else Ok st)%py
  else Ok st.

(** [range(hi, 0, -1)]. *)
Definition range_down (hi : Z) : list Z := rev (map Z.of_nat (seq 1 (Z.to_nat hi))).

(** A [for] loop that threads the local variables. *)
Fixpoint for_fold {A S} (xs : list A) (body : A -> S -> outcome S) (st : S)
  : outcome S :=
  match xs with
  | [] => Ok st
  | x :: rest => bindO (body x st) (for_fold rest body)
  end.

(** The three nested loops (lines 83 to 97). *)
Definition pll_search (target_freq : float) : outcome pll_state :=
  for_fold (range_down 2) (fun refdiv =>
    for_fold (range_down 7) (fun postdiv1 =>
      for_fold (range_down 7) (fun postdiv2 =>
        pll_body target_freq refdiv postdiv1 postdiv2))) pll_init.

Definition send_hash_frequency (target_freq : float) : M unit :=
  let freqbuf := [0x00; 0x08; 0x40; 0xA0; 0x02; 0x41] in
  (st <-- lift (pll_search target_freq) ;;
   if fb_divider st =? 0 then
     logging LogError
   else
     let freqbuf := list_setitem freqbuf 3 (fb_divider st) in
     let freqbuf := list_setitem freqbuf 4 (ref_divider st) in
     let freqbuf :=
       list_setitem freqbuf 5
         (Z.shiftl (Z.land (post_divider1 st - 1) 0xf) 4
          + Z.land (post_divider2 st - 1) 0xf) in
     let freqbuf :=
       if fleb (float_of_int 2400)
               (fdiv (float_of_int (fb_divider st * 25))
                     (float_of_int (ref_divider st)))
       then list_setitem freqbuf 2 0x50 else freqbuf in
     (send (Z.lor (Z.lor TYPE_CMD GROUP_ALL) CMD_WRITE) freqbuf ;;;
      logging LogInfo))%io.

(** *** [count_asic_chips] *)

Definition chip_id_response : string := "aa5513700000".

(** The [while True] loop.  Every pass takes one scripted read, so [fuel]
    above the number of scripted reads is never used up. *)
Fixpoint count_asic_chips_loop (fuel : nat) (chip_id_response_length : Z)
    (chip_counter : Z) : M Z :=
  match fuel with
  | O => lift Blocked
  | S fuel' =>
      (data <-- serial_rx_func chip_id_response_length 5000 ;;
       match data with
       | None => ret chip_counter
       | Some bs =>
           if negb (str_in chip_id_response (hexlify bs))
           then count_asic_chips_loop fuel' chip_id_response_length chip_counter
           else count_asic_chips_loop fuel' chip_id_response_length
                  (chip_counter + 1)
       end)%io
  end.

Definition count_asic_chips (expected_count : Z) (chip_id_response_length : Z)
  : M Z :=
  (send (Z.lor (Z.lor TYPE_CMD GROUP_ALL) CMD_READ) [0x00; 0x00] ;;;
   chip_counter <--
     (fun s => count_asic_chips_loop (S (length (rx s)))
                 chip_id_response_length 0 s) ;;
   send_chain_inactive ;;;
   ret chip_counter)%io.

(** *** [get_difficulty_mask] *)

(** The [while p * 2 <= n] loop; it doubles [p] at most [n] times. *)
Fixpoint largest_power_of_two_loop (fuel : nat) (p n : Z) : outcome Z :=
  match fuel with
  | O => Blocked
  | S fuel' =>
      if p * 2 <=? n then largest_power_of_two_loop fuel' (p * 2) n
      else Ok p
  end.

Definition _largest_power_of_two (n : Z) : outcome Z :=
  largest_power_of_two_loop (S (Z.to_nat n)) 1 n.

Definition _reverse_bits (byte : Z) : outcome Z :=
  int_base2 (rev (format_08b byte)).

Definition get_difficulty_mask (difficulty : Z) : outcome (list Z) :=
  let mask := [0x00; 0x14; 0x00; 0x00; 0x00; 0xFF] in
  (p <- _largest_power_of_two difficulty ;;
   let difficulty := p - 1 in
   for_fold (range 4) (fun i mask =>
     let value := Z.land (Z.shiftr difficulty (8 * i)) 0xFF in
     r <- _reverse_bits value ;;
     Ok (list_setitem mask (Z.to_nat (5 - i)) r)) mask)%py.

(** *** [send_init] *)

Definition send_init (frequency : float) (expected : Z) (difficulty : Z)
  : M Z :=
  let write_all := Z.lor (Z.lor TYPE_CMD GROUP_ALL) CMD_WRITE in
  let write_single := Z.lor (Z.lor TYPE_CMD GROUP_SINGLE) CMD_WRITE in
  (for_each (range 3) (fun _ => set_version_mask 0xFFFFFFFF) ;;;
   send_simple [0x55; 0xAA; 0x52; 0x05; 0x00; 0x00; 0x0A] ;;;
   chip_counter <-- count_asic_chips expected 11 ;;
   if chip_counter =? 0 then raise (Exception "No ASIC chips found")
   else
   (set_version_mask 0xFFFFFFFF ;;;
    send write_all [0x00; 0xA8; 0x00; 0x07; 0x00; 0x00] ;;;
    send write_all [0x00; 0x18; 0xF0; 0x00; 0xC1; 0x00] ;;;
    send_chain_inactive ;;;
    address_interval <--
      lift (bindO (py_truediv 256 chip_counter) py_int) ;;
    for_each (range chip_counter)
      (fun i => set_chip_address (i * address_interval)) ;;;
    send write_all [0x00; 0x3C; 0x80; 0x00; 0x8B; 0x00] ;;;
    send write_all [0x00; 0x3C; 0x80; 0x00; 0x80; 0x0C] ;;;
    difficulty_mask <-- lift (get_difficulty_mask difficulty) ;;
    send write_all difficulty_mask ;;;
    send write_all [0x00; 0x58; 0x00; 0x01; 0x11; 0x11] ;;;
    for_each (range chip_counter) (fun i =>
      let addr := i * address_interval in
      send write_single [addr; 0xA8; 0x00; 0x07; 0x01; 0xF0] ;;;
      send write_single [addr; 0x18; 0xF0; 0x00; 0xC1; 0x00] ;;;
      send write_single [addr; 0x3C; 0x80; 0x00; 0x8B; 0x00] ;;;
      send write_single [addr; 0x3C; 0x80; 0x00; 0x80; 0x0C] ;;;
      send write_single [addr; 0x3C; 0x80; 0x00; 0x82; 0xAA]) ;;;
    send write_all [0x00; 0xB9; 0x00; 0x00; 0x44; 0x80] ;;;
    send write_all [0x00; 0x54; 0x00; 0x00; 0x00; 0x02] ;;;
    send write_all [0x00; 0xB9; 0x00; 0x00; 0x44; 0x80] ;;;
    send write_all [0x00; 0x3C; 0x80; 0x00; 0x8D; 0xEE] ;;;
    send_hash_frequency frequency ;;;
    send write_all [0x00; 0x10; 0x00; 0x00; 0x1E; 0xB5] ;;;
    ret chip_counter))%io.

End Driver.

(** ** Frames as the protocol describes them *)

(** The frame-class bit of a header. *)
Definition is_job (header : Z) : bool := negb (Z.land header TYPE_JOB =? 0).

(** A Command frame: sync pair, header, length, payload, one checksum byte
    over header, length and payload. *)
Definition command_frame (crc5 : list Z -> Z) (header : Z) (payload : list Z)
  : list Z :=
  let len := Z.of_nat (length payload) + 3 in
  [0x55; 0xAA; header; len] ++ payload ++ [crc5 ([header; len] ++ payload)].

(** A Job frame: the 16-bit checksum follows the payload, high byte first. *)
Definition job_frame (crc16 : list Z -> Z) (header : Z) (payload : list Z)
  : list Z :=
  let len := Z.of_nat (length payload) + 4 in
  let c := crc16 ([header; len] ++ payload) in
  [0x55; 0xAA; header; len] ++ payload ++ [c / 256; c mod 256].

Definition byte_range (v : Z) : Prop := 0 <= v < 256.

(** The transport after [frames] more buffers were written. *)
Definition emit (s : io) (frames : list (list Z)) : io :=
  mkIO (tx s ++ frames) (rx s) (logs s).

(** Modelled from the spec: the checksum primitives of [crc_functions],
    which is not among the sources.  The spec fixes their contract only
    ([crc5] gives a byte with five significant bits, the 16-bit variant a
    16-bit value); these two functions satisfy it and serve to run the
    driver on concrete inputs.  Every general theorem below holds for any
    pair of functions with that contract. *)
Definition crc5_bit (crc : Z) (din : bool) : Z :=
  let top := xorb (Z.testbit crc 4) din in
  let crc := Z.land (Z.shiftl crc 1) 0x1F in
  if top then Z.lxor crc 0x05 else crc.

Definition byte_bits (b : Z) : list bool :=
  map (fun i => Z.testbit b (Z.of_nat i)) [7; 6; 5; 4; 3; 2; 1; 0]%nat.

Definition crc5_sample (data : list Z) : Z :=
  Z.land (fold_left crc5_bit (flat_map byte_bits data) 0x1F) 0x1F.

Definition crc16_step (crc : Z) (b : Z) : Z :=
  fold_left
    (fun crc (_ : nat) =>
       if Z.testbit crc 15
       then Z.land (Z.lxor (Z.shiftl crc 1) 0x1021) 0xFFFF
       else Z.land (Z.shiftl crc 1) 0xFFFF)
    (seq 0 8) (Z.lxor crc (Z.shiftl b 8)).

Definition crc16_sample (data : list Z) : Z :=
  Z.land (fold_left crc16_step data 0xFFFF) 0xFFFF.

(** ** The difficulty mask as the protocol describes it *)

(** The byte whose bit [i] is bit [7 - i] of [b]. *)
Definition bit_reverse8 (b : Z) : Z :=
  fold_right
    (fun i acc => acc + Z.b2z (Z.testbit b (Z.of_nat i)) * 2 ^ (7 - Z.of_nat i))
    0 (seq 0 8).

(** Byte [i] of [m], counting from the least significant one. *)
Definition mask_byte (m : Z) (i : Z) : Z := (m / 2 ^ (8 * i)) mod 256.

(** [p] is the largest power of two that is at most [n]. *)
Definition largest_power_of_two_le (n p : Z) : Prop :=
  (exists k, 0 <= k /\ p = 2 ^ k) /\ p <= n < 2 * p.

(** ** The divider search as the protocol describes it *)

(** A candidate: reference divider, post divider 1, post divider 2. *)
Definition candidate : Type := (Z * Z * Z)%type.

Definition cand_ref (c : candidate) : Z := fst (fst c).
Definition cand_pd1 (c : candidate) : Z := snd (fst c).
Definition cand_pd2 (c : candidate) : Z := snd c.

(** The candidates in the order of the loops: reference divider 2 then 1,
    each post divider from 7 down to 1. *)
Definition pll_candidates : list candidate :=
  flat_map (fun refdiv =>
    flat_map (fun postdiv1 =>
      map (fun postdiv2 => (refdiv, postdiv1, postdiv2)) (range_down 7))
      (range_down 7))
    (range_down 2).

(** The binary64 number nearest to an integer. *)
Definition binary64 (z : Z) : spec_float := binary_normalize 53 1024 z 0 false.

(** The binary64 number 1.0, the cap on the deviation in MHz. *)
Definition one_mhz : spec_float := S754_finite false 4503599627370496 (-52).

(** [round(pd1 * pd2 * target * ref / 25)], every operation in
    binary64. *)
Definition feedback_of (target : spec_float) (c : candidate) : outcome Z :=
  py_round
    (SFdiv 53 1024
       (SFmul 53 1024
          (SFmul 53 1024 (binary64 (cand_pd1 c * cand_pd2 c)) target)
          (binary64 (cand_ref c)))
       (binary64 25)).

(** [25 * fb / (ref * pd1 * pd2)] in MHz, rounded to binary64 after the
    product and after the quotient. *)
Definition achieved_frequency (c : candidate) (fb : Z) : spec_float :=
  SFdiv 53 1024
    (SFmul 53 1024 (binary64 25) (binary64 fb))
    (binary64 (cand_ref c * cand_pd2 c * cand_pd1 c)).

(** The computed deviation: [|target - achieved|] in binary64, the
    difference rounded once more. *)
Definition deviation (target : spec_float) (c : candidate) (fb : Z)
  : spec_float :=
  SFabs (SFsub 53 1024 target (achieved_frequency c fb)).

(** A candidate the search may keep: [pd1 >= pd2], feedback divider [fb]
    inside [0xA0, 0xEF], computed deviation under 1.0 MHz. *)
Definition admissible (target : spec_float) (c : candidate) (fb : Z) : Prop :=
  cand_pd2 c <= cand_pd1 c
  /\ feedback_of target c = Ok fb
  /\ 0xA0 <= fb <= 0xEF
  /\ SFltb (deviation target c fb) one_mhz = true.

(** The rational number that a finite float stands for. *)
Definition float_value (x : spec_float) : Q :=
  match x with
  | S754_finite s m e =>
      ((if s then -1 else 1) * inject_Z (Z.pos m) * Qpower 2 e)%Q
  | _ => 0%Q
  end.

(** [25 * fb / (ref * pd1 * pd2)] as a rational number. *)
Definition exact_frequency (c : candidate) (fb : Z) : Q :=
  (inject_Z (25 * fb) / inject_Z (cand_ref c * cand_pd1 c * cand_pd2 c))%Q.

(** The deviation [|target - 25 * fb / (ref * pd1 * pd2)|] without any
    rounding. *)
Definition exact_deviation (target : spec_float) (c : candidate) (fb : Z) : Q :=
  Qabs (float_value target - exact_frequency c fb)%Q.

Definition not_nan (x : float) : bool :=
  match x with
  | S754_nan => false
  | _ => true
  end.

(** The divider triple that a state of the search holds. *)
Definition best_of (st : pll_state) : candidate :=
  (ref_divider st, post_divider1 st, post_divider2 st).

(** What the search knows after the candidates [seen]: either nothing was
    kept and none of them is admissible, or the state holds an admissible
    candidate, strictly better than the admissible ones before it and not
    worse than those after it. *)
Definition search_inv (target : float) (seen : list candidate)
    (st : pll_state) : Prop :=
  (fb_divider st = 0
   /\ min_difference st = float_of_int 10
   /\ forall c fb, In c seen -> ~ admissible target c fb)
  \/
  (fb_divider st <> 0
   /\ admissible target (best_of st) (fb_divider st)
   /\ min_difference st = deviation target (best_of st) (fb_divider st)
   /\ newf st = achieved_frequency (best_of st) (fb_divider st)
   /\ exists pre post,
        seen = pre ++ best_of st :: post
        /\ (forall c fb, In c pre -> admissible target c fb ->
              fltb (min_difference st) (deviation target c fb) = true)
        /\ (forall c fb, In c post -> admissible target c fb ->
              fltb (deviation target c fb) (min_difference st) = false)).

(** The body of the innermost loop, on a candidate. *)
Definition pll_step (target : float) (c : candidate) (st : pll_state)
  : outcome pll_state :=
  pll_body target (cand_ref c) (cand_pd1 c) (cand_pd2 c) st.

(** ** Enumeration and initialization as the protocol describes them *)

(** A response carries the chip signature. *)
Definition matches_chip_id (bs : list Z) : bool :=
  str_in chip_id_response (hexlify bs).

(** The number of responses with the signature. *)
Definition count_matching (responses : list (list Z)) : nat :=
  length (filter matches_chip_id responses).

(** The transport with its coming reads replaced. *)
Definition with_rx (s : io) (rest : list (option (list Z))) : io :=
  mkIO (tx s) rest (logs s).

(** An 11-byte identification response of a BM1370. *)
Definition chip_response : list Z :=
  [0xAA; 0x55; 0x13; 0x70; 0x00; 0x00; 0x00; 0x00; 0x00; 0x00; 0x00].

Definition version_mask_frame (crc5 : list Z -> Z) : list Z :=
  command_frame crc5 0x51 [0x00; 0xA4; 0x90; 0x00; 0xFF; 0xFF].

Definition chain_inactive_frame (crc5 : list Z -> Z) : list Z :=
  command_frame crc5 0x53 [0x00; 0x00].

(** Steps VersionMaskPrime, ChainReset and Enumerate. *)
Definition enumeration_frames (crc5 : list Z -> Z) : list (list Z) :=
  [version_mask_frame crc5; version_mask_frame crc5; version_mask_frame crc5;
   [0x55; 0xAA; 0x52; 0x05; 0x00; 0x00; 0x0A];
   command_frame crc5 0x52 [0x00; 0x00];
   chain_inactive_frame crc5].

(** Steps VersionMaskFinal and GlobalConfig. *)
Definition config_frames (crc5 : list Z -> Z) : list (list Z) :=
  [version_mask_frame crc5;
   command_frame crc5 0x51 [0x00; 0xA8; 0x00; 0x07; 0x00; 0x00];
   command_frame crc5 0x51 [0x00; 0x18; 0xF0; 0x00; 0xC1; 0x00];
   chain_inactive_frame crc5].

(** The set-address command for one chip. *)
Definition set_address_frame (crc5 : list Z -> Z) (addr : Z) : list Z :=
  command_frame crc5 0x40 [addr; 0x00].

(** The addresses of [chip_count] chips spaced by [interval]. *)
Definition chip_addresses (chip_count interval : Z) : list Z :=
  map (fun i => i * interval) (range chip_count).

(** Step Addressing. *)
Definition address_frames (crc5 : list Z -> Z) (chip_count interval : Z)
  : list (list Z) :=
  map (set_address_frame crc5) (chip_addresses chip_count interval).

(** Steps GlobalDefaults, DifficultyConfig and GlobalTicket. *)
Definition defaults_frames (crc5 : list Z -> Z) (mask : list Z)
  : list (list Z) :=
  [command_frame crc5 0x51 [0x00; 0x3C; 0x80; 0x00; 0x8B; 0x00];
   command_frame crc5 0x51 [0x00; 0x3C; 0x80; 0x00; 0x80; 0x0C];
   command_frame crc5 0x51 mask;
   command_frame crc5 0x51 [0x00; 0x58; 0x00; 0x01; 0x11; 0x11]].

(** Step PerChipTuning, for one address. *)
Definition chip_tuning_frames (crc5 : list Z -> Z) (addr : Z)
  : list (list Z) :=
  [command_frame crc5 0x41 [addr; 0xA8; 0x00; 0x07; 0x01; 0xF0];
   command_frame crc5 0x41 [addr; 0x18; 0xF0; 0x00; 0xC1; 0x00];
   command_frame crc5 0x41 [addr; 0x3C; 0x80; 0x00; 0x8B; 0x00];
   command_frame crc5 0x41 [addr; 0x3C; 0x80; 0x00; 0x80; 0x0C];
   command_frame crc5 0x41 [addr; 0x3C; 0x80; 0x00; 0x82; 0xAA]].

Definition tuning_frames (crc5 : list Z -> Z) (chip_count interval : Z)
  : list (list Z) :=
  flat_map (chip_tuning_frames crc5) (chip_addresses chip_count interval).

(** Step GlobalMisc. *)
Definition misc_frames (crc5 : list Z -> Z) : list (list Z) :=
  [command_frame crc5 0x51 [0x00; 0xB9; 0x00; 0x00; 0x44; 0x80];
   command_frame crc5 0x51 [0x00; 0x54; 0x00; 0x00; 0x00; 0x02];
   command_frame crc5 0x51 [0x00; 0xB9; 0x00; 0x00; 0x44; 0x80];
   command_frame crc5 0x51 [0x00; 0x3C; 0x80; 0x00; 0x8D; 0xEE]].

(** The payload of the frequency write for a divider set. *)
Definition frequency_payload (st : pll_state) : list Z :=
  [0x00; 0x08;
   if fleb (float_of_int 2400)
           (fdiv (float_of_int (fb_divider st * 25))
                 (float_of_int (ref_divider st)))
   then 0x50 else 0x40;
   fb_divider st;
   ref_divider st;
   Z.shiftl (Z.land (post_divider1 st - 1) 0xf) 4
   + Z.land (post_divider2 st - 1) 0xf].

(** Step FrequencyConfig: one write when the search kept a divider set. *)
Definition frequency_frames (crc5 : list Z -> Z) (found : outcome pll_state)
  : list (list Z) :=
  match found with
  | Ok st =>
      if fb_divider st =? 0 then []
      else [command_frame crc5 0x51 (frequency_payload st)]
  | _ => []
  end.

(** Step FinalCommit. *)
Definition commit_frame (crc5 : list Z -> Z) : list Z :=
  command_frame crc5 0x51 [0x00; 0x10; 0x00; 0x00; 0x1E; 0xB5].

(** What [send_init] writes from the call of [send_hash_frequency] on, by
    the outcome of the divider search: nothing when the search raised, the
    commit frame alone when no divider set was found. *)
Definition closing_frames (crc5 : list Z -> Z) (found : outcome pll_state)
  : list (list Z) :=
  match found with
  | Ok _ => frequency_frames crc5 found ++ [commit_frame crc5]
  | _ => []
  end.

Definition closing_logs (found : outcome pll_state) : list log_record :=
  match found with
  | Ok st => [if fb_divider st =? 0 then LogError else LogInfo]
  | _ => []
  end.

Definition closing_outcome (found : outcome pll_state) (chip_count : Z)
  : outcome Z :=
  match found with
  | Ok _ => Ok chip_count
  | Raise e => Raise e
  | Blocked => Blocked
  end.

(** A frame is a set-address command: Command class, single chip, command
    code 0. *)
Definition is_set_address (frame : list Z) : bool :=
  match frame with
  | _ :: _ :: header :: _ => header =? 0x40
  | _ => false
  end.

(** A frame writes the frequency register 0x08 on all chips. *)
Definition is_frequency_write (frame : list Z) : bool :=
  match frame with
  | _ :: _ :: header :: _ :: _ :: register :: _ =>
      (header =? 0x51) && (register =? 0x08)
  | _ => false
  end.

(** The address that a set-address frame carries. *)
Definition frame_address (frame : list Z) : Z := nth 4 frame 0.

(** ** The baud rate commands *)

Definition set_default_baud (crc5 crc16_false : list Z -> Z) : M Z :=
  let baudrate := [0x00; MISC_CONTROL; 0x00; 0x00; 0x7A; 0x31] in
  (send crc5 crc16_false (Z.lor (Z.lor TYPE_CMD GROUP_ALL) CMD_WRITE) baudrate ;;;
   ret 115749)%io.

Definition set_max_baud : M Z :=
  (send_simple [0x55; 0xAA; 0x51; 0x09; 0x00; 0x28; 0x11; 0x30; 0x02; 0x00; 0x03] ;;;
   ret 1000000)%io.

(** ** Reading a frame back *)

Definition frame_header (frame : list Z) : Z := nth 2 frame 0.

Definition frame_length_field (frame : list Z) : Z := nth 3 frame 0.

(** The payload of a frame whose checksum takes [checksum_len] bytes: what
    the length field leaves after header, length and checksum. *)
Definition frame_payload (checksum_len : Z) (frame : list Z) : list Z :=
  firstn (Z.to_nat (frame_length_field frame - 2 - checksum_len))
         (skipn 4 frame).

(** A buffer is a frame: the sync pair, then as many bytes as the length
    field says, all of them bytes. *)
Definition frame_ok (frame : list Z) : Prop :=
  firstn 2 frame = [0x55; 0xAA]
  /\ Z.of_nat (length frame) = frame_length_field frame + 2
  /\ Forall byte_range frame.

(** The mask value that the last four bytes of a difficulty payload
    carry: each byte mirrored back, the last byte least significant. *)
Definition decode_difficulty_mask (mask : list Z) : Z :=
  bit_reverse8 (nth 5 mask 0)
  + 256 * bit_reverse8 (nth 4 mask 0)
  + 65536 * bit_reverse8 (nth 3 mask 0)
  + 16777216 * bit_reverse8 (nth 2 mask 0).

Definition is_binary_digit (c : ascii) : bool :=
  Ascii.eqb c "0" || Ascii.eqb c "1".

(** The float test of line 106 agrees with the integer comparison. *)
Definition vco_test_ok (ref fb : Z) : bool :=
  Bool.eqb
    (fleb (float_of_int 2400)
          (fdiv (float_of_int (fb * 25)) (float_of_int ref)))
    (2400 * ref <=? 25 * fb).

(** ** Signs of floats *)

(** Zero, a negative number, or not a number. *)
Definition not_above_zero (x : float) : Prop :=
  match x with
  | S754_zero _ => True
  | S754_finite true _ _ => True
  | S754_infinity true => True
  | S754_nan => True
  | _ => False
  end.

Definition is_positive_finite (x : float) : bool :=
  match x with
  | S754_finite false _ _ => true
  | _ => false
  end.

(** The integers that the loop body converts for a candidate are positive
    finite floats. *)
Definition candidate_factors_ok (c : candidate) : bool :=
  is_positive_finite (float_of_int (cand_pd1 c * cand_pd2 c))
  && is_positive_finite (float_of_int (cand_ref c)).

(** ** Checks that run over finite ranges *)

(** On [b], [_reverse_bits] gives the mirrored byte, and gives [b] back
    from it. *)
Definition reverse_bits_ok (b : Z) : bool :=
  match _reverse_bits b with
  | Ok r =>
      (r =? bit_reverse8 b) && is_byte r
      && match _reverse_bits r with
         | Ok b' => b' =? b
         | _ => false
         end
  | _ => false
  end.

(** The dividers of a candidate are in the ranges of the loops. *)
Definition candidate_in_range (c : candidate) : bool :=
  ((cand_ref c =? 1) || (cand_ref c =? 2))
  && (1 <=? cand_pd1 c) && (cand_pd1 c <=? 7)
  && (1 <=? cand_pd2 c) && (cand_pd2 c <=? 7).

(** No number occurs twice. *)
Fixpoint distinctb (l : list Z) : bool :=
  match l with
  | [] => true
  | x :: rest => negb (existsb (Z.eqb x) rest) && distinctb rest
  end.

(** [int(256 / n)] is the integer quotient (or [n] is 0). *)
Definition interval_ok (n : Z) : bool :=
  (n =? 0)
  || match bindO (py_truediv 256 n) py_int with
     | Ok q => q =? 256 / n
     | _ => false
     end.

(** ** [send] *)

Section SendProofs.

Variable crc5 : list Z -> Z.
Variable crc16_false : list Z -> Z.
Hypothesis crc5_u8 : forall data, 0 <= crc5 data < 256.
Hypothesis crc16_u16 : forall data, 0 <= crc16_false data < 65536.

Lemma is_byte_true v : 0 <= v < 256 -> is_byte v = true.
Proof. unfold is_byte. intros H. apply andb_true_iff. split; [apply Z.leb_le | apply Z.ltb_lt]; lia. Qed.

Lemma is_byte_false v : ~ 0 <= v < 256 -> is_byte v = false.
Proof.
  unfold is_byte. intros H.
  destruct (0 <=? v) eqn:E1; destruct (v <? 256) eqn:E2; try reflexivity.
  apply Z.leb_le in E1. apply Z.ltb_lt in E2. lia.
Qed.

Lemma forallb_is_byte l : Forall byte_range l -> forallb is_byte l = true.
Proof.
  induction 1 as [|v l Hv _ IH]; [reflexivity|].
  simpl. now rewrite (is_byte_true v Hv).
Qed.

Lemma firstn_length_app {A} (l r : list A) : firstn (length l) (l ++ r) = l.
Proof. induction l; simpl; congruence. Qed.

Lemma skipn_length_app {A} (l r : list A) : skipn (length l) (l ++ r) = r.
Proof. induction l; simpl; congruence. Qed.

Lemma skipn_succ_length_app {A} (l : list A) (x : A) (r : list A) :
  skipn (S (length l)) (l ++ x :: r) = r.
Proof. induction l as [|a l IH]; [reflexivity | exact IH]. Qed.

Lemma setitem_middle (pre post : list Z) (old v : Z) (n : nat) :
  0 <= v < 256 -> n = length pre ->
  setitem (pre ++ old :: post) n v = Ok (pre ++ v :: post).
Proof.
  intros Hv ->. unfold setitem. rewrite (is_byte_true v Hv).
  cbn [negb]. rewrite length_app. cbn [length].
  replace (length pre <? length pre + S (length post))%nat with true
    by (symmetry; apply Nat.ltb_lt; lia).
  now rewrite firstn_length_app, skipn_succ_length_app.
Qed.

Lemma setslice_middle (pre old post data : list Z) (lo hi : nat) :
  Forall byte_range data ->
  lo = length pre -> hi = (length pre + length old)%nat ->
  setslice (pre ++ old ++ post) lo hi data = Ok (pre ++ data ++ post).
Proof.
  intros Hd -> ->. unfold setslice. rewrite (forallb_is_byte _ Hd).
  rewrite firstn_length_app, Nat.add_comm, <- skipn_skipn.
  now rewrite skipn_length_app, skipn_length_app.
Qed.

Lemma getslice_middle (pre mid post : list Z) (lo hi : nat) :
  lo = length pre -> hi = (length pre + length mid)%nat ->
  getslice (pre ++ mid ++ post) lo hi = mid.
Proof.
  intros -> ->. unfold getslice.
  rewrite skipn_length_app, Nat.add_comm, Nat.add_sub.
  apply firstn_length_app.
Qed.

Lemma land_255 c : 0 <= c -> Z.land c 0xFF = c mod 256.
Proof. intros _. change 0xFF with (Z.ones 8). now rewrite Z.land_ones by lia. Qed.

Lemma high_byte c : 0 <= c < 65536 -> Z.land (Z.shiftr c 8) 0xFF = c / 256.
Proof.
  intros H. rewrite Z.shiftr_div_pow2 by lia. change (2 ^ 8) with 256.
  rewrite land_255 by (apply Z.div_pos; lia).
  apply Z.mod_small. split; [apply Z.div_pos; lia|].
  apply Z.div_lt_upper_bound; lia.
Qed.

(** The first five assignments of [send], on a zeroed buffer with room
    for [tail] after the payload. *)
Lemma send_buf_prefix (header len : Z) (payload tail : list Z) :
  0 <= header < 256 -> 0 <= len < 256 -> Forall byte_range payload ->
  (buf <- setitem (bytearray 4 ++ bytearray (length payload) ++ tail) 0 0x55 ;;
   buf <- setitem buf 1 0xAA ;;
   buf <- setitem buf 2 header ;;
   buf <- setitem buf 3 len ;;
   setslice buf 4 (4 + length payload) payload)%py
  = Ok ([0x55; 0xAA; header; len] ++ payload ++ tail).
Proof.
  intros Hh Hl Hp.
  set (rest := bytearray (length payload) ++ tail).
  change (bytearray 4 ++ rest) with ([] ++ 0 :: [0; 0; 0] ++ rest).
  rewrite setitem_middle by (lia || reflexivity). cbn [bindO].
  change ([] ++ 85 :: [0; 0; 0] ++ rest) with ([85] ++ 0 :: [0; 0] ++ rest).
  rewrite setitem_middle by (lia || reflexivity). cbn [bindO].
  change ([85] ++ 170 :: [0; 0] ++ rest) with ([85; 170] ++ 0 :: [0] ++ rest).
  rewrite setitem_middle by (lia || reflexivity). cbn [bindO].
  change ([85; 170] ++ header :: [0] ++ rest)
    with ([85; 170; header] ++ 0 :: rest).
  rewrite setitem_middle by (lia || reflexivity). cbn [bindO].
  change ([85; 170; header] ++ len :: rest)
    with ([85; 170; header; len] ++ rest).
  subst rest.
  apply (setslice_middle [0x55; 0xAA; header; len]); auto.
  unfold bytearray. now rewrite repeat_length.
Qed.

Lemma getslice_checksum_input (a b h l : Z) (payload tail : list Z) :
  getslice ([a; b; h; l] ++ payload ++ tail) 2 (4 + length payload)
  = [h; l] ++ payload.
Proof.
  apply (getslice_middle [a; b] ([h; l] ++ payload) tail); simpl; lia.
Qed.

Lemma bytearray_room (n k : nat) :
  bytearray (n + (4 + k)) = bytearray 4 ++ bytearray n ++ bytearray k.
Proof. unfold bytearray. rewrite <- !repeat_app. f_equal. lia. Qed.

(** The buffer of a Command frame. *)
Lemma send_buf_command header payload :
  0 <= header < 256 -> Forall byte_range payload ->
  is_job header = false ->
  Z.of_nat (length payload) + 3 < 256 ->
  send_buf crc5 crc16_false header payload
  = Ok (command_frame crc5 header payload).
Proof.
  intros Hh Hp Hj Hlen. unfold send_buf, command_frame.
  unfold is_job in Hj. rewrite Hj.
  change (TYPE_CMD =? TYPE_JOB) with false. cbv iota zeta.
  change (length payload + 5)%nat with (length payload + (4 + 1))%nat.
  rewrite (bytearray_room (length payload) 1).
  set (len := Z.of_nat (length payload) + 3).
  pose proof (send_buf_prefix header len payload (bytearray 1) Hh
                ltac:(subst len; lia) Hp) as Hpre.
  cbv zeta in Hpre |- *.
  destruct (setitem _ 0 85) as [b0| |]; try discriminate Hpre.
  cbn [bindO] in Hpre |- *.
  destruct (setitem b0 1 170) as [b1| |]; try discriminate Hpre.
  cbn [bindO] in Hpre |- *.
  destruct (setitem b1 2 header) as [b2| |]; try discriminate Hpre.
  cbn [bindO] in Hpre |- *.
  destruct (setitem b2 3 len) as [b3| |]; try discriminate Hpre.
  cbn [bindO] in Hpre |- *.
  rewrite Hpre. cbn [bindO].
  rewrite getslice_checksum_input.
  rewrite (app_assoc [85; 170; header; len] payload).
  apply setitem_middle; [apply crc5_u8 | rewrite length_app; simpl; lia].
Qed.

(** The buffer of a Job frame. *)
Lemma send_buf_job header payload :
  0 <= header < 256 -> Forall byte_range payload ->
  is_job header = true ->
  Z.of_nat (length payload) + 4 < 256 ->
  send_buf crc5 crc16_false header payload
  = Ok (job_frame crc16_false header payload).
Proof.
  intros Hh Hp Hj Hlen. unfold send_buf, job_frame.
  unfold is_job in Hj. rewrite Hj.
  change (TYPE_JOB =? TYPE_JOB) with true. cbv iota zeta.
  change (length payload + 6)%nat with (length payload + (4 + 2))%nat.
  rewrite (bytearray_room (length payload) 2).
  set (len := Z.of_nat (length payload) + 4).
  pose proof (send_buf_prefix header len payload (bytearray 2) Hh
                ltac:(subst len; lia) Hp) as Hpre.
  cbv zeta in Hpre |- *.
  destruct (setitem _ 0 85) as [b0| |]; try discriminate Hpre.
  cbn [bindO] in Hpre |- *.
  destruct (setitem b0 1 170) as [b1| |]; try discriminate Hpre.
  cbn [bindO] in Hpre |- *.
  destruct (setitem b1 2 header) as [b2| |]; try discriminate Hpre.
  cbn [bindO] in Hpre |- *.
  destruct (setitem b2 3 len) as [b3| |]; try discriminate Hpre.
  cbn [bindO] in Hpre |- *.
  rewrite Hpre. cbn [bindO].
  rewrite getslice_checksum_input.
  set (c := crc16_false ([header; len] ++ payload)).
  assert (Hc : 0 <= c < 65536) by apply crc16_u16.
  assert (Hhi : 0 <= c / 256 < 256)
    by (split; [apply Z.div_pos; lia | apply Z.div_lt_upper_bound; lia]).
  rewrite (app_assoc [85; 170; header; len] payload).
  rewrite high_byte, land_255 by lia.
  rewrite (setitem_middle _ [0] 0 (c / 256))
    by (lia || (rewrite length_app; simpl; lia)).
  cbn [bindO].
  change (c / 256 :: [0]) with ([c / 256] ++ [0]).
  rewrite (app_assoc _ [c / 256] [0]).
  rewrite (setitem_middle _ [] 0 (c mod 256));
    [| apply Z.mod_pos_bound; lia | rewrite !length_app; simpl; lia].
  now rewrite <- !app_assoc.
Qed.

(** The length byte is assigned before the payload is copied: when it is
    not a byte the assignment raises and no buffer is built. *)
Lemma send_buf_length_overflow header payload :
  0 <= header < 256 ->
  256 <= Z.of_nat (length payload) + (if is_job header then 4 else 3) ->
  send_buf crc5 crc16_false header payload = Raise ValueError.
Proof.
  intros Hh Hlen. unfold send_buf. fold (is_job header).
  assert (Hroom : exists k,
    (if (if is_job header then TYPE_JOB else TYPE_CMD) =? TYPE_JOB
     then (length payload + 6)%nat else (length payload + 5)%nat)
    = (length payload + (4 + k))%nat).
  { destruct (is_job header); [exists 2%nat | exists 1%nat]; reflexivity. }
  destruct Hroom as [k ->]. cbv zeta.
  rewrite bytearray_room.
  set (rest := bytearray (length payload) ++ bytearray k).
  change (bytearray 4 ++ rest) with ([] ++ 0 :: [0; 0; 0] ++ rest).
  rewrite setitem_middle by (lia || reflexivity). cbn [bindO].
  change ([] ++ 85 :: [0; 0; 0] ++ rest) with ([85] ++ 0 :: [0; 0] ++ rest).
  rewrite setitem_middle by (lia || reflexivity). cbn [bindO].
  change ([85] ++ 170 :: [0; 0] ++ rest) with ([85; 170] ++ 0 :: [0] ++ rest).
  rewrite setitem_middle by (lia || reflexivity). cbn [bindO].
  unfold setitem at 1.
  rewrite is_byte_false; [reflexivity|].
  destruct (is_job header); cbn in Hlen |- *; lia.
Qed.

(** [send] of a Command frame that fits. *)
Lemma send_command header payload s :
  0 <= header < 256 -> Forall byte_range payload ->
  is_job header = false -> Z.of_nat (length payload) + 3 < 256 ->
  send crc5 crc16_false header payload s
  = (Ok tt, emit s [command_frame crc5 header payload]).
Proof.
  intros Hh Hp Hj Hlen. unfold send, bindM, lift.
  now rewrite (send_buf_command header payload).
Qed.

End SendProofs.

Lemma crc5_sample_u8 data : 0 <= crc5_sample data < 256.
Proof.
  unfold crc5_sample. change 0x1F with (Z.ones 5).
  rewrite Z.land_ones by lia.
  pose proof (Z.mod_pos_bound (fold_left crc5_bit (flat_map byte_bits data) (Z.ones 5)) (2 ^ 5)).
  change (2 ^ 5) with 32 in *. lia.
Qed.

Lemma crc16_sample_u16 data : 0 <= crc16_sample data < 65536.
Proof.
  unfold crc16_sample. change 0xFFFF with (Z.ones 16).
  rewrite Z.land_ones by lia.
  pose proof (Z.mod_pos_bound (fold_left crc16_step data (Z.ones 16)) (2 ^ 16)).
  change (2 ^ 16) with 65536 in *. lia.
Qed.

(** C1 (amended).  For a header byte and a payload of bytes, [send] writes
    exactly one buffer.  For a Job header and a payload of at most 251
    bytes it is [0x55, 0xAA, header, len + 4, payload, checksum high byte,
    checksum low byte], of [len + 6] bytes, with the 16-bit checksum taken
    over [header, len + 4, payload]; for a Command header and a payload of
    at most 252 bytes it is [0x55, 0xAA, header, len + 3, payload,
    checksum], of [len + 5] bytes, with the 5-bit checksum over [header,
    len + 3, payload].  A longer payload makes [send] raise [ValueError]
    and nothing is written. *)
Theorem send_frame_layout :
  forall (crc5 crc16_false : list Z -> Z),
    (forall data, 0 <= crc5 data < 256) ->
    (forall data, 0 <= crc16_false data < 65536) ->
    forall (header : Z) (payload : list Z) (s : io),
      0 <= header < 256 ->
      Forall byte_range payload ->
      let n := Z.of_nat (length payload) in
      if is_job header then
        (n + 4 < 256 ->
         let c := crc16_false ([header; n + 4] ++ payload) in
         let frame := [0x55; 0xAA; header; n + 4] ++ payload ++ [c / 256; c mod 256] in
         send crc5 crc16_false header payload s = (Ok tt, emit s [frame])
         /\ length frame = (length payload + 6)%nat)
        /\ (256 <= n + 4 ->
            send crc5 crc16_false header payload s = (Raise ValueError, s))
      else
        (n + 3 < 256 ->
         let c := crc5 ([header; n + 3] ++ payload) in
         let frame := [0x55; 0xAA; header; n + 3] ++ payload ++ [c] in
         send crc5 crc16_false header payload s = (Ok tt, emit s [frame])
         /\ length frame = (length payload + 5)%nat)
        /\ (256 <= n + 3 ->
            send crc5 crc16_false header payload s = (Raise ValueError, s)).
Proof.
  intros crc5 crc16_false H5 H16 header payload s Hh Hp n.
  destruct (is_job header) eqn:Hj; split.
  - intros Hlen c frame. split.
    + unfold send, bindM, lift.
      rewrite (send_buf_job crc5 crc16_false H16 header payload Hh Hp Hj Hlen).
      reflexivity.
    + subst frame. rewrite !length_app. simpl. lia.
  - intros Hlen. unfold send, bindM, lift.
    rewrite (send_buf_length_overflow crc5 crc16_false header payload Hh);
      [reflexivity | rewrite Hj; exact Hlen].
  - intros Hlen c frame. split.
    + unfold send, bindM, lift.
      rewrite (send_buf_command crc5 crc16_false H5 header payload Hh Hp Hj Hlen).
      reflexivity.
    + subst frame. rewrite !length_app. simpl. lia.
  - intros Hlen. unfold send, bindM, lift.
    rewrite (send_buf_length_overflow crc5 crc16_false header payload Hh);
      [reflexivity | rewrite Hj; exact Hlen].
Qed.

Lemma send_frame_layout_witness :
  0 <= 0x21 < 256 /\ Forall byte_range [1; 2; 3] /\
  send crc5_sample crc16_sample 0x21 [1; 2; 3] (mkIO [] [] [])
  = (Ok tt, mkIO [[0x55; 0xAA; 0x21; 7; 1; 2; 3; 0x83; 0xF5]] [] []).
Proof.
  assert (Hh : 0 <= 0x21 < 256) by lia.
  assert (Hp : Forall byte_range [1; 2; 3])
    by (repeat constructor; unfold byte_range; lia).
  split; [exact Hh | split; [exact Hp |]].
  pose proof (send_frame_layout crc5_sample crc16_sample
                crc5_sample_u8 crc16_sample_u16 0x21 [1; 2; 3]
                (mkIO [] [] []) Hh Hp) as H.
  cbv zeta in H. change (is_job 0x21) with true in H. cbv iota in H.
  destruct H as [H _].
  destruct (H ltac:(simpl; lia)) as [E _].
  rewrite E. vm_compute. reflexivity.
Defined.

(** A Job frame whose payload has 252 bytes: the length byte would be 256,
    [send] raises and writes nothing. *)
Lemma send_long_payload_counterexample :
  let payload := repeat 0 252 in
  let s := mkIO [] [] [] in
  Forall byte_range payload /\
  send crc5_sample crc16_sample 0x21 payload s = (Raise ValueError, s) /\
  send crc5_sample crc16_sample 0x21 payload s
  <> (Ok tt, emit s [job_frame crc16_sample 0x21 payload]).
Proof.
  cbv zeta.
  assert (E : send crc5_sample crc16_sample 0x21 (repeat 0 252) (mkIO [] [] [])
              = (Raise ValueError, mkIO [] [] [])) by (vm_compute; reflexivity).
  split; [| split; [exact E | rewrite E; discriminate]].
  apply Forall_forall. intros x Hx. apply repeat_spec in Hx. subst x.
  unfold byte_range. lia.
Qed.

(** ** [get_difficulty_mask] *)

Lemma range_bounded_forallb (P : Z -> bool) (n : Z) :
  forallb P (range n) = true -> forall b, 0 <= b < n -> P b = true.
Proof.
  intros H b Hb. rewrite forallb_forall in H. apply H.
  unfold range. apply in_map_iff. exists (Z.to_nat b).
  split; [lia | apply in_seq; lia].
Qed.

Lemma reverse_bits_all_bytes : forallb reverse_bits_ok (range 256) = true.
Proof. vm_compute. reflexivity. Qed.

Lemma reverse_bits_spec b :
  0 <= b < 256 ->
  _reverse_bits b = Ok (bit_reverse8 b)
  /\ 0 <= bit_reverse8 b < 256
  /\ _reverse_bits (bit_reverse8 b) = Ok b.
Proof.
  intros Hb.
  pose proof (range_bounded_forallb _ 256 reverse_bits_all_bytes b Hb) as H.
  unfold reverse_bits_ok in H.
  destruct (_reverse_bits b) as [r| |]; try discriminate H.
  apply andb_true_iff in H. destruct H as [H H3].
  apply andb_true_iff in H. destruct H as [H1 H2].
  apply Z.eqb_eq in H1. subst r.
  unfold is_byte in H2. apply andb_true_iff in H2. destruct H2 as [Hlo Hhi].
  apply Z.leb_le in Hlo. apply Z.ltb_lt in Hhi.
  destruct (_reverse_bits (bit_reverse8 b)) as [b'| |]; try discriminate H3.
  apply Z.eqb_eq in H3. subst b'. auto.
Qed.

(** [bit_reverse8] mirrors the eight bits. *)
Lemma bit_reverse8_testbit b i :
  0 <= b < 256 -> 0 <= i < 8 ->
  Z.testbit (bit_reverse8 b) i = Z.testbit b (7 - i).
Proof.
  intros Hb Hi.
  set (ok := fun b => forallb (fun i =>
     Bool.eqb (Z.testbit (bit_reverse8 b) i) (Z.testbit b (7 - i))) (range 8)).
  assert (Hall : forallb ok (range 256) = true) by (vm_compute; reflexivity).
  pose proof (range_bounded_forallb ok 256 Hall b Hb) as H1.
  pose proof (range_bounded_forallb _ 8 H1 i Hi) as H2.
  now apply Bool.eqb_prop in H2.
Qed.

Lemma largest_power_of_two_loop_spec (fuel : nat) :
  forall p n k,
    0 <= k -> p = 2 ^ k -> p <= n -> n < 2 ^ (k + Z.of_nat fuel) ->
    exists p', largest_power_of_two_loop fuel p n = Ok p'
               /\ largest_power_of_two_le n p'.
Proof.
  induction fuel as [|fuel IH]; intros p n k Hk Hp Hle Hlt.
  - rewrite Z.add_0_r in Hlt. lia.
  - cbn [largest_power_of_two_loop].
    destruct (p * 2 <=? n) eqn:E.
    + apply Z.leb_le in E.
      apply (IH (p * 2) n (k + 1)); try lia.
      * rewrite Z.pow_add_r by lia. subst p. reflexivity.
      * replace (k + 1 + Z.of_nat fuel) with (k + Z.of_nat (S fuel)) by lia.
        exact Hlt.
    + apply Z.leb_gt in E. exists p. split; [reflexivity|].
      split; [exists k; auto | lia].
Qed.

(** The loop of [_largest_power_of_two] ends, on the largest power of two
    that is at most [n], for every [n >= 1]. *)
Lemma largest_power_of_two_spec n :
  1 <= n ->
  exists p, _largest_power_of_two n = Ok p /\ largest_power_of_two_le n p.
Proof.
  intros Hn. unfold _largest_power_of_two.
  apply (largest_power_of_two_loop_spec _ 1 n 0); try lia.
  rewrite Z.add_0_l, Nat2Z.inj_succ, Z2Nat.id by lia.
  pose proof (Z.pow_gt_lin_r 2 (Z.succ n)). lia.
Qed.

Lemma largest_power_of_two_small n : n <= 1 -> _largest_power_of_two n = Ok 1.
Proof.
  intros Hn. unfold _largest_power_of_two. cbn [largest_power_of_two_loop].
  destruct (1 * 2 <=? n) eqn:E; [apply Z.leb_le in E; lia | reflexivity].
Qed.

Lemma mask_byte_shift m i :
  0 <= m -> 0 <= i -> Z.land (Z.shiftr m (8 * i)) 0xFF = mask_byte m i.
Proof.
  intros Hm Hi. unfold mask_byte.
  rewrite Z.shiftr_div_pow2 by lia.
  apply land_255. apply Z.div_pos; [lia | apply Z.pow_pos_nonneg; lia].
Qed.

Lemma mask_byte_range m i : 0 <= mask_byte m i < 256.
Proof. unfold mask_byte. apply Z.mod_pos_bound. lia. Qed.

(** The four passes of the loop of [get_difficulty_mask], for a mask value
    that is not negative. *)
Lemma difficulty_mask_of_power p :
  1 <= p ->
  for_fold (range 4) (fun i mask =>
     r <- _reverse_bits (Z.land (Z.shiftr (p - 1) (8 * i)) 0xFF) ;;
     Ok (list_setitem mask (Z.to_nat (5 - i)) r))%py
     [0x00; 0x14; 0x00; 0x00; 0x00; 0xFF]
  = Ok [0x00; 0x14;
        bit_reverse8 (mask_byte (p - 1) 3);
        bit_reverse8 (mask_byte (p - 1) 2);
        bit_reverse8 (mask_byte (p - 1) 1);
        bit_reverse8 (mask_byte (p - 1) 0)].
Proof.
  intros Hp.
  change (range 4) with [0; 1; 2; 3].
  cbn [for_fold].
  rewrite !mask_byte_shift by lia.
  destruct (reverse_bits_spec _ (mask_byte_range (p - 1) 0)) as [-> _].
  cbn [bindO].
  destruct (reverse_bits_spec _ (mask_byte_range (p - 1) 1)) as [-> _].
  cbn [bindO].
  destruct (reverse_bits_spec _ (mask_byte_range (p - 1) 2)) as [-> _].
  cbn [bindO].
  destruct (reverse_bits_spec _ (mask_byte_range (p - 1) 3)) as [-> _].
  reflexivity.
Qed.

(** C9.  On a byte, [_reverse_bits] returns a byte, and reversing twice
    gives the byte back. *)
Theorem reverse_bits_involution :
  forall b, 0 <= b < 256 ->
    exists r, _reverse_bits b = Ok r
              /\ 0 <= r < 256
              /\ _reverse_bits r = Ok b.
Proof.
  intros b Hb. exists (bit_reverse8 b). now apply reverse_bits_spec.
Qed.

Lemma reverse_bits_involution_witness :
  0 <= 0x0F < 256 /\
  exists r, _reverse_bits 0x0F = Ok r /\ 0 <= r < 256 /\ _reverse_bits r = Ok 0x0F.
Proof.
  split; [lia | apply (reverse_bits_involution 0x0F); lia].
Defined.

(** C6.  For a difficulty of at least 1, with [p] the largest power of two
    that is at most the difficulty, [get_difficulty_mask] returns the
    template bytes 0x00 and 0x14 followed by the four low bytes of [p - 1],
    each bit-reversed, the least significant one last; for difficulty 16
    this is [0x00, 0x14, 0x00, 0x00, 0x00, 0xF0]. *)
Theorem difficulty_mask_encoding :
  (forall difficulty, 1 <= difficulty ->
     exists p,
       largest_power_of_two_le difficulty p
       /\ get_difficulty_mask difficulty
          = Ok [0x00; 0x14;
                bit_reverse8 (mask_byte (p - 1) 3);
                bit_reverse8 (mask_byte (p - 1) 2);
                bit_reverse8 (mask_byte (p - 1) 1);
                bit_reverse8 (mask_byte (p - 1) 0)])
  /\ get_difficulty_mask 16 = Ok [0x00; 0x14; 0x00; 0x00; 0x00; 0xF0].
Proof.
  split; [| vm_compute; reflexivity].
  intros d Hd.
  destruct (largest_power_of_two_spec d Hd) as [p [Hrun Hp]].
  exists p. split; [exact Hp|].
  unfold get_difficulty_mask. rewrite Hrun. cbn [bindO].
  apply difficulty_mask_of_power.
  destruct Hp as [[k [Hk ->]] _].
  pose proof (Z.pow_pos_nonneg 2 k). lia.
Qed.

Lemma difficulty_mask_encoding_witness :
  1 <= 0x1FFFFF /\
  exists p,
    largest_power_of_two_le 0x1FFFFF p
    /\ get_difficulty_mask 0x1FFFFF
       = Ok [0x00; 0x14;
             bit_reverse8 (mask_byte (p - 1) 3);
             bit_reverse8 (mask_byte (p - 1) 2);
             bit_reverse8 (mask_byte (p - 1) 1);
             bit_reverse8 (mask_byte (p - 1) 0)].
Proof.
  split; [lia | apply (proj1 difficulty_mask_encoding); lia].
Defined.

(** C10.  For a difficulty of at most 1, zero and negative values
    included, [_largest_power_of_two] returns 1 and [get_difficulty_mask]
    returns [0x00, 0x14, 0x00, 0x00, 0x00, 0x00] without raising. *)
Theorem difficulty_mask_degenerate :
  forall difficulty, difficulty <= 1 ->
    _largest_power_of_two difficulty = Ok 1
    /\ get_difficulty_mask difficulty = Ok [0x00; 0x14; 0x00; 0x00; 0x00; 0x00].
Proof.
  intros d Hd. split; [now apply largest_power_of_two_small|].
  unfold get_difficulty_mask.
  rewrite (largest_power_of_two_small d Hd). reflexivity.
Qed.

Lemma difficulty_mask_degenerate_witness :
  -5 <= 1 /\
  _largest_power_of_two (-5) = Ok 1
  /\ get_difficulty_mask (-5) = Ok [0x00; 0x14; 0x00; 0x00; 0x00; 0x00].
Proof.
  split; [lia | apply (difficulty_mask_degenerate (-5)); lia].
Defined.

(** ** The order of floats *)

Ltac cmp_cases :=
  repeat match goal with
  | H : context [Pos.compare_cont Eq ?a ?b] |- _ =>
      change (Pos.compare_cont Eq a b) with (Pos.compare a b) in H
  | |- context [Pos.compare_cont Eq ?a ?b] =>
      change (Pos.compare_cont Eq a b) with (Pos.compare a b)
  | H : context [Z.compare ?a ?b] |- _ =>
      destruct (Z.compare_spec a b); cbn in H
  | H : context [Pos.compare ?a ?b] |- _ =>
      destruct (Pos.compare_spec a b); cbn in H
  | |- context [Z.compare ?a ?b] => destruct (Z.compare_spec a b); cbn
  | |- context [Pos.compare ?a ?b] => destruct (Pos.compare_spec a b); cbn
  end.

Lemma fltb_trans a b c :
  fltb a b = true -> fltb b c = true -> fltb a c = true.
Proof.
  unfold fltb, SFltb, SFcompare.
  destruct a as [[]|[]| |[] ma ea], b as [[]|[]| |[] mb eb],
           c as [[]|[]| |[] mc ec];
    cbn; intros H1 H2; try discriminate; try reflexivity;
    cmp_cases; subst; try discriminate; try reflexivity; try lia.
Qed.

(** Below a bound [m], a float is below every number that is not below
    [m]. *)
Lemma fltb_cotrans a m x :
  fltb a m = true -> not_nan x = true -> fltb x m = false -> fltb a x = true.
Proof.
  unfold fltb, SFltb, SFcompare.
  destruct a as [[]|[]| |[] ma ea], m as [[]|[]| |[] mb eb],
           x as [[]|[]| |[] mc ec];
    cbn; intros H1 H2 H3; try discriminate; try reflexivity;
    cmp_cases; subst; try discriminate; try reflexivity; try lia.
Qed.

Lemma fltb_not_nan a b : fltb a b = true -> not_nan a = true.
Proof. destruct a; try reflexivity. discriminate. Qed.

Lemma fltb_irrefl a : fltb a a = false.
Proof.
  unfold fltb, SFltb, SFcompare.
  destruct a as [[]|[]| |[] ma ea]; cbn; try reflexivity;
    rewrite Z.compare_refl;
    change (Pos.compare_cont Eq ma ma) with (Pos.compare ma ma);
    now rewrite Pos.compare_refl.
Qed.

(** ** Loops *)

Lemma for_fold_app {A S} (body : A -> S -> outcome S) (xs ys : list A) st :
  for_fold (xs ++ ys) body st = bindO (for_fold xs body st) (for_fold ys body).
Proof.
  revert st. induction xs as [|x xs IH]; intros st; [reflexivity|].
  cbn [for_fold app]. destruct (body x st); cbn [bindO]; auto.
Qed.

Lemma for_fold_ext {A S} (f g : A -> S -> outcome S) (xs : list A) :
  (forall x st, f x st = g x st) ->
  forall st, for_fold xs f st = for_fold xs g st.
Proof.
  intros E. induction xs as [|x xs IH]; intros st; [reflexivity|].
  cbn [for_fold]. rewrite E. destruct (g x st); cbn [bindO]; auto.
Qed.

Lemma for_fold_map {A B S} (g : A -> B) (body : B -> S -> outcome S) xs st :
  for_fold (map g xs) body st = for_fold xs (fun x => body (g x)) st.
Proof.
  revert st. induction xs as [|x xs IH]; intros st; [reflexivity|].
  cbn [for_fold map]. destruct (body (g x) st); cbn [bindO]; auto.
Qed.

Lemma for_fold_flat_map {A B S} (f : A -> list B) (body : B -> S -> outcome S)
    xs st :
  for_fold (flat_map f xs) body st
  = for_fold xs (fun x => for_fold (f x) body) st.
Proof.
  revert st. induction xs as [|x xs IH]; intros st; [reflexivity|].
  cbn [for_fold flat_map]. rewrite for_fold_app.
  destruct (for_fold (f x) body st); cbn [bindO]; auto.
Qed.

(** ** [send_hash_frequency]: the search *)

(** The three loops are one pass over [pll_candidates]. *)
Lemma pll_search_flat target :
  pll_search target = for_fold pll_candidates (pll_step target) pll_init.
Proof.
  unfold pll_search, pll_candidates.
  rewrite for_fold_flat_map. apply for_fold_ext. intros refdiv st.
  rewrite for_fold_flat_map. apply for_fold_ext. intros postdiv1 st'.
  rewrite for_fold_map. reflexivity.
Qed.

Lemma max_diff_is_one_mhz : max_diff = one_mhz.
Proof. vm_compute. reflexivity. Qed.

Lemma max_diff_below_ten : fltb one_mhz (float_of_int 10) = true.
Proof. vm_compute. reflexivity. Qed.

Lemma admissible_fb target c fb fb' :
  feedback_of target c = Ok fb -> admissible target c fb' -> fb' = fb.
Proof. intros E (_ & E' & _). rewrite E in E'. now inversion E'. Qed.

(** One pass of the loop body keeps [search_inv]. *)
Lemma pll_step_inv target seen c st st' :
  search_inv target seen st ->
  pll_step target c st = Ok st' ->
  search_inv target (seen ++ [c]) st'.
Proof.
  intros Inv Hstep. destruct c as [[refdiv postdiv1] postdiv2].
  set (c := (refdiv, postdiv1, postdiv2)) in *.
  unfold pll_step, pll_body in Hstep.
  cbn [c cand_ref cand_pd1 cand_pd2 fst snd] in Hstep.
  rewrite max_diff_is_one_mhz in Hstep. unfold fltb in Hstep.
  (* a candidate that is not kept leaves the state as it is *)
  assert (Hkeep :
    (forall fb, admissible target c fb ->
       fltb (deviation target c fb) (min_difference st) = false) ->
    st' = st -> search_inv target (seen ++ [c]) st').
  { intros Hc ->.
    destruct Inv as [(Hz & Hmin & Hnone)
                    | (Hnz & Hadm & Hmin & Hnew & pre & post & E & Hpre & Hpost)].
    - left. split; [exact Hz|]. split; [exact Hmin|].
      intros c' fb Hin Ha. apply in_app_or in Hin.
      destruct Hin as [Hin | [<- | []]]; [exact (Hnone c' fb Hin Ha)|].
      pose proof (Hc fb Ha) as Hd. rewrite Hmin in Hd.
      destruct Ha as (_ & _ & _ & Hlt).
      rewrite (fltb_trans _ _ _ Hlt max_diff_below_ten) in Hd. discriminate.
    - right. split; [exact Hnz|]. split; [exact Hadm|].
      split; [exact Hmin|]. split; [exact Hnew|].
      exists pre, (post ++ [c]). split; [| split; [exact Hpre|]].
      + rewrite E, <- app_assoc. reflexivity.
      + intros c' fb Hin Ha. apply in_app_or in Hin.
        destruct Hin as [Hin | [<- | []]];
          [exact (Hpost c' fb Hin Ha) | exact (Hc fb Ha)]. }
  destruct (postdiv1 >=? postdiv2) eqn:Hge.
  2:{ inversion Hstep. apply Hkeep; auto.
      intros fb (Hle & _). cbn [c cand_pd1 cand_pd2 fst snd] in Hle.
      rewrite Z.geb_leb in Hge. apply Z.leb_gt in Hge. lia. }
  change (py_round _) with (feedback_of target c) in Hstep.
  destruct (feedback_of target c) as [fb| |] eqn:Efb;
    cbn [bindO] in Hstep; try discriminate Hstep.
  destruct ((160 <=? fb) && (fb <=? 239)) eqn:Hrange.
  2:{ inversion Hstep. apply Hkeep; auto.
      intros fb' Ha. pose proof (admissible_fb _ _ _ _ Efb Ha). subst fb'.
      destruct Ha as (_ & _ & Hr & _).
      apply andb_false_iff in Hrange.
      destruct Hrange as [H | H]; apply Z.leb_gt in H; lia. }
  change (fabs _) with (deviation target c fb) in Hstep.
  set (d := deviation target c fb) in *.
  destruct (SFltb d (min_difference st) && SFltb d one_mhz) eqn:Hbetter.
  2:{ inversion Hstep. apply Hkeep; auto.
      intros fb' Ha. pose proof (admissible_fb _ _ _ _ Efb Ha). subst fb'.
      destruct Ha as (_ & _ & _ & Hlt). fold d in Hlt |- *.
      rewrite Hlt, andb_true_r in Hbetter. exact Hbetter. }
  (* the candidate is kept *)
  apply andb_true_iff in Hbetter. destruct Hbetter as [Hlt Hcap].
  apply andb_true_iff in Hrange. destruct Hrange as [Hlo Hhi].
  apply Z.leb_le in Hlo. apply Z.leb_le in Hhi.
  inversion Hstep. subst st'. clear Hstep Hkeep.
  right. cbn [fb_divider best_of ref_divider post_divider1 post_divider2
              min_difference newf].
  fold c.
  split; [lia|]. split.
  { split; [| split; [exact Efb | split; [lia | exact Hcap]]].
    cbn [c cand_pd1 cand_pd2 fst snd].
    rewrite Z.geb_leb in Hge. apply Z.leb_le in Hge. exact Hge. }
  split; [reflexivity|]. split; [reflexivity|].
  exists seen, []. split; [reflexivity|]. split; [| intros c' fb' []].
  intros c' fb' Hin Ha. fold d.
  destruct Inv as [(_ & _ & Hnone)
                  | (_ & Hadm & Hmin & _ & pre & post & E & Hpre & Hpost)].
  - destruct (Hnone c' fb' Hin Ha).
  - rewrite E in Hin. apply in_app_or in Hin.
    destruct Hin as [Hin | [<- | Hin]].
    + exact (fltb_trans _ _ _ Hlt (Hpre c' fb' Hin Ha)).
    + destruct Hadm as (_ & Ebest & _).
      rewrite (admissible_fb _ _ _ _ Ebest Ha), <- Hmin. exact Hlt.
    + apply (fltb_cotrans d (min_difference st));
        [exact Hlt | | exact (Hpost c' fb' Hin Ha)].
      destruct Ha as (_ & _ & _ & Hc). exact (fltb_not_nan _ _ Hc).
Qed.

Lemma pll_fold_inv target cs :
  forall seen st st',
    search_inv target seen st ->
    for_fold cs (pll_step target) st = Ok st' ->
    search_inv target (seen ++ cs) st'.
Proof.
  induction cs as [|c cs IH]; intros seen st st' Inv Hrun.
  - inversion Hrun. subst st'. now rewrite app_nil_r.
  - cbn [for_fold] in Hrun.
    destruct (pll_step target c st) as [st1| |] eqn:E1;
      cbn [bindO] in Hrun; try discriminate Hrun.
    replace (seen ++ c :: cs) with ((seen ++ [c]) ++ cs)
      by (now rewrite <- app_assoc).
    apply (IH _ st1); [| exact Hrun].
    exact (pll_step_inv target seen c st st1 Inv E1).
Qed.

Lemma pll_search_inv target st :
  pll_search target = Ok st -> search_inv target pll_candidates st.
Proof.
  rewrite pll_search_flat. intros Hrun.
  apply (pll_fold_inv target pll_candidates [] pll_init st); [| exact Hrun].
  left. split; [reflexivity|]. split; [reflexivity|]. intros c fb [].
Qed.

Lemma fltb_asym a b : fltb a b = true -> fltb b a = false.
Proof.
  intros H. destruct (fltb b a) eqn:E; [| reflexivity].
  pose proof (fltb_trans _ _ _ H E) as Hc.
  rewrite fltb_irrefl in Hc. discriminate.
Qed.

Lemma pll_candidates_in_range c :
  In c pll_candidates ->
  (cand_ref c = 1 \/ cand_ref c = 2)
  /\ 1 <= cand_pd1 c <= 7 /\ 1 <= cand_pd2 c <= 7.
Proof.
  intros Hin.
  assert (Hall : forallb candidate_in_range pll_candidates = true)
    by (vm_compute; reflexivity).
  rewrite forallb_forall in Hall. specialize (Hall c Hin).
  unfold candidate_in_range in Hall.
  repeat (apply andb_true_iff in Hall; destruct Hall as [Hall ?]).
  apply orb_true_iff in Hall.
  repeat match goal with
         | H : (_ <=? _) = true |- _ => apply Z.leb_le in H
         end.
  split; [destruct Hall as [H' | H']; apply Z.eqb_eq in H'; auto | lia].
Qed.

Lemma distinctb_NoDup l : distinctb l = true -> NoDup l.
Proof.
  induction l as [|x l IH]; intros H; [constructor|].
  cbn [distinctb] in H. apply andb_true_iff in H. destruct H as [Hx Hl].
  constructor; [| exact (IH Hl)].
  intros Hin. apply negb_true_iff in Hx.
  assert (Hex : existsb (Z.eqb x) l = true)
    by (apply existsb_exists; exists x; split; [exact Hin | apply Z.eqb_refl]).
  rewrite Hex in Hx. discriminate.
Qed.

(** Each divider triple is visited once. *)
Lemma pll_candidates_nodup : NoDup pll_candidates.
Proof.
  apply (NoDup_map_inv
           (fun c => 100 * cand_ref c + 10 * cand_pd1 c + cand_pd2 c)).
  apply distinctb_NoDup. vm_compute. reflexivity.
Qed.

Lemma fltb_false_leb a b :
  not_nan a = true -> not_nan b = true ->
  SFltb a b = false -> SFleb b a = true.
Proof.
  unfold SFltb, SFleb, SFcompare.
  destruct a as [[]|[]| |[] ma ea], b as [[]|[]| |[] mb eb];
    cbn; intros H1 H2 H3; try discriminate; try reflexivity;
    rewrite ?(Z.compare_antisym ea eb);
    change (Pos.compare_cont Eq mb ma) with (Pos.compare mb ma);
    change (Pos.compare_cont Eq ma mb) with (Pos.compare ma mb) in H3;
    rewrite ?(Pos.compare_antisym ma mb);
    destruct (ea ?= eb); cbn in *; try discriminate; try reflexivity;
    destruct (ma ?= mb)%positive; cbn in *; try discriminate; reflexivity.
Qed.

(** C4 (amended).  When the search returns a divider set, it is an
    admissible candidate of the iteration (reference divider 1 or 2, post
    dividers in [1, 7] with [pd1 >= pd2], feedback divider the rounded
    binary64 quotient inside [0xA0, 0xEF], computed deviation under 1.0);
    its computed deviation, the binary64 value of [|target - 25 * fb /
    (ref * pd2 * pd1)|] with every operation rounded, is at most that of
    every admissible candidate, and strictly below that of every admissible
    candidate visited before it: of the candidates at the least computed
    deviation, the first in the iteration order is returned. *)
Theorem pll_search_minimal :
  forall (target : spec_float) (st : pll_state),
    pll_search target = Ok st ->
    fb_divider st <> 0 ->
    let best := best_of st in
    let fb := fb_divider st in
    (cand_ref best = 1 \/ cand_ref best = 2)
    /\ 1 <= cand_pd1 best <= 7 /\ 1 <= cand_pd2 best <= 7
    /\ admissible target best fb
    /\ min_difference st = deviation target best fb
    /\ (forall c fb', In c pll_candidates -> admissible target c fb' ->
          SFleb (deviation target best fb) (deviation target c fb') = true)
    /\ exists pre post,
         pll_candidates = pre ++ best :: post
         /\ forall c fb', In c pre -> admissible target c fb' ->
              SFltb (deviation target best fb) (deviation target c fb') = true.
Proof.
  intros target st Hrun Hnz best fb.
  destruct (pll_search_inv target st Hrun)
    as [(Hz & _) | (_ & Hadm & Hmin & _ & pre & post & E & Hpre & Hpost)];
    [contradiction|].
  fold best fb in Hadm, Hmin, E. rewrite Hmin in Hpre, Hpost.
  assert (Hin : In best pll_candidates)
    by (rewrite E; apply in_or_app; right; left; reflexivity).
  destruct (pll_candidates_in_range best Hin) as (Hr & H1 & H2).
  split; [exact Hr|]. split; [exact H1|]. split; [exact H2|].
  split; [exact Hadm|]. split; [exact Hmin|]. split.
  - intros c fb' Hc Ha.
    apply fltb_false_leb.
    + destruct Ha as (_ & _ & _ & Hlt). exact (fltb_not_nan _ _ Hlt).
    + destruct Hadm as (_ & _ & _ & Hlt). exact (fltb_not_nan _ _ Hlt).
    + rewrite E in Hc. apply in_app_or in Hc.
      destruct Hc as [Hc | [<- | Hc]].
      * apply fltb_asym. exact (Hpre c fb' Hc Ha).
      * destruct Hadm as (_ & Ebest & _).
        rewrite (admissible_fb _ _ _ _ Ebest Ha). apply fltb_irrefl.
      * exact (Hpost c fb' Hc Ha).
  - exists pre, post. split; [exact E | exact Hpre].
Qed.

(** At 485 MHz the search returns (2, 5, 1) with feedback divider 194,
    after it has visited the admissible (2, 6, 1) with feedback divider
    233, whose computed deviation is larger. *)
Lemma pll_search_minimal_witness :
  let target := binary64 485 in
  let st := mkPLL 194 5 1 2 (S754_zero false) (binary64 485) in
  pll_search target = Ok st /\ fb_divider st <> 0 /\
  admissible target (2, 5, 1) 194 /\
  admissible target (2, 6, 1) 233 /\
  SFleb (deviation target (2, 5, 1) 194) (deviation target (2, 6, 1) 233) = true /\
  exists pre post,
    pll_candidates = pre ++ (2, 5, 1) :: post
    /\ forall c fb', In c pre -> admissible target c fb' ->
         SFltb (deviation target (2, 5, 1) 194) (deviation target c fb') = true.
Proof.
  cbv zeta.
  assert (Hrun : pll_search (binary64 485)
                 = Ok (mkPLL 194 5 1 2 (S754_zero false) (binary64 485)))
    by (vm_compute; reflexivity).
  assert (Hnz : fb_divider (mkPLL 194 5 1 2 (S754_zero false) (binary64 485)) <> 0)
    by (cbn; lia).
  assert (Hin : In (2, 6, 1) pll_candidates)
    by (vm_compute; repeat (first [left; reflexivity | right])).
  assert (Hadm : admissible (binary64 485) (2, 6, 1) 233).
  { split; [cbn; lia | split; [vm_compute; reflexivity
                              | split; [lia | vm_compute; reflexivity]]]. }
  split; [exact Hrun | split; [exact Hnz |]].
  destruct (pll_search_minimal _ _ Hrun Hnz)
    as (_ & _ & _ & Ha & _ & Hmin & Hex).
  split; [exact Ha | split; [exact Hadm | split; [| exact Hex]]].
  exact (Hmin (2, 6, 1) 233 Hin Hadm).
Defined.

(** The target 6728711975151630 * 2^-47 (about 47.81 MHz) is a binary64
    number.  The search returns (2, 7, 7) with feedback divider 187.  The
    candidate (2, 7, 6) with feedback divider 161 is admissible and has the
    same computed deviation, but its deviation without rounding is strictly
    smaller: the returned set does not minimize [|target - 25 * fb / (ref *
    pd1 * pd2)|]. *)
Lemma pll_search_exact_counterexample :
  let target := S754_finite false 6728711975151630 (-47) in
  valid_binary 53 1024 target = true
  /\ pll_search target
     = Ok (mkPLL 187 7 7 2
             (S754_finite false 7659183039745536 (-56))
             (S754_finite false 6713752633277127 (-47)))
  /\ In (2, 7, 6) pll_candidates
  /\ admissible target (2, 7, 6) 161
  /\ deviation target (2, 7, 6) 161 = deviation target (2, 7, 7) 187
  /\ Qlt (exact_deviation target (2, 7, 6) 161)
         (exact_deviation target (2, 7, 7) 187)
  /\ Qlt (exact_deviation target (2, 7, 7) 187) 1%Q.
Proof.
  cbv zeta.
  split; [vm_compute; reflexivity |].
  split; [vm_compute; reflexivity |].
  split; [vm_compute; repeat (first [left; reflexivity | right]) |].
  split.
  { split; [cbn; lia | split; [vm_compute; reflexivity
                              | split; [lia | vm_compute; reflexivity]]]. }
  split; [vm_compute; reflexivity |].
  split; vm_compute; reflexivity.
Qed.

(** C8.  For 400.0 MHz the search returns the divider set with feedback
    divider 224 (inside [0xA0, 0xEF]), reference divider 2 and post dividers
    7 and 1; its frequency 25 * 224 / (2 * 7 * 1) is 400 MHz, so the
    deviation, zero, is under 1.0 MHz. *)
Theorem pll_search_400 :
  let target := float_of_int 400 in
  exists st,
    pll_search target = Ok st
    /\ fb_divider st <> 0
    /\ 0xA0 <= fb_divider st <= 0xEF
    /\ (ref_divider st = 1 \/ ref_divider st = 2)
    /\ 1 <= post_divider2 st <= post_divider1 st /\ post_divider1 st <= 7
    /\ newf st = achieved_frequency (best_of st) (fb_divider st)
    /\ fltb (deviation target (best_of st) (fb_divider st)) max_diff = true
    /\ Z.abs (400 * (ref_divider st * post_divider1 st * post_divider2 st)
              - 25 * fb_divider st)
       < 1 * (ref_divider st * post_divider1 st * post_divider2 st).
Proof.
  exists (mkPLL 224 7 1 2 (S754_zero false) (float_of_int 400)).
  split; [vm_compute; reflexivity|].
  cbn [fb_divider ref_divider post_divider1 post_divider2 newf best_of].
  split; [lia|]. split; [lia|]. split; [auto|]. split; [lia|].
  split; [lia|]. split; [vm_compute; reflexivity|].
  split; [vm_compute; reflexivity | cbn; lia].
Qed.

(** ** Running the transport monad *)

Lemma bindM_ok {A B} (m : M A) (k : A -> M B) s a s' :
  m s = (Ok a, s') -> bindM m k s = k a s'.
Proof. intros E. unfold bindM. now rewrite E. Qed.

Lemma emit_emit s a b : emit (emit s a) b = emit s (a ++ b).
Proof. unfold emit. cbn [tx rx logs]. now rewrite <- app_assoc. Qed.

Lemma emit_nil s : emit s [] = s.
Proof. destruct s. unfold emit. cbn [tx rx logs]. now rewrite app_nil_r. Qed.

Lemma for_each_emit {A} (xs : list A) (body : A -> M unit)
    (frames : A -> list (list Z)) :
  (forall x s, In x xs -> body x s = (Ok tt, emit s (frames x))) ->
  forall s, for_each xs body s = (Ok tt, emit s (flat_map frames xs)).
Proof.
  induction xs as [|x xs IH]; intros Hbody s.
  - cbn [for_each flat_map]. now rewrite emit_nil.
  - cbn [for_each flat_map].
    rewrite (bindM_ok _ _ _ _ _ (Hbody x s (or_introl eq_refl))).
    rewrite IH by (intros y s' Hy; apply Hbody; now right).
    now rewrite emit_emit.
Qed.

Ltac byte_list :=
  repeat (apply Forall_cons; [unfold byte_range; lia |]); apply Forall_nil.

Ltac send_side :=
  first [ assumption | lia | reflexivity | byte_list | (cbn [length]; lia) ].

(** One [send] of a Command frame with a literal header, inside a
    sequence. *)
Ltac step_send :=
  erewrite bindM_ok by (apply send_command; send_side).

Section EnumerationProofs.

Variable crc5 : list Z -> Z.
Variable crc16_false : list Z -> Z.
Hypothesis crc5_u8 : forall data, 0 <= crc5 data < 256.

Lemma count_loop_done len (responses : list (list Z)) :
  forall fuel chip_counter s rest,
    rx s = map Some responses ++ None :: rest ->
    (length responses < fuel)%nat ->
    count_asic_chips_loop fuel len chip_counter s
    = (Ok (chip_counter + Z.of_nat (count_matching responses)),
       with_rx s rest).
Proof.
  induction responses as [|bs responses IH];
    intros fuel chip_counter s rest Hrx Hfuel;
    (destruct fuel as [|fuel]; [cbn in Hfuel; lia|]);
    cbn [count_asic_chips_loop]; unfold bindM, serial_rx_func;
    rewrite Hrx; cbn [map app].
  - unfold ret, with_rx, count_matching. cbn. now rewrite Z.add_0_r.
  - fold (matches_chip_id bs).
    unfold count_matching. cbn [filter].
    destruct (matches_chip_id bs); cbn [negb length];
      rewrite (IH fuel _ _ rest) by (cbn [rx length] in *; auto; lia);
      unfold with_rx; cbn [tx rx logs]; f_equal; f_equal;
      fold (count_matching responses); lia.
Qed.

(** With a transport that answers every read with a [bytes] object, empty
    or not, the loop is still running when the reads are used up. *)
Lemma count_loop_blocked len (responses : list (list Z)) :
  forall fuel chip_counter s,
    rx s = map Some responses ->
    fst (count_asic_chips_loop fuel len chip_counter s) = Blocked.
Proof.
  induction responses as [|bs responses IH]; intros fuel chip_counter s Hrx;
    (destruct fuel as [|fuel]; [reflexivity|]);
    cbn [count_asic_chips_loop]; unfold bindM, serial_rx_func;
    rewrite Hrx; cbn [map]; [reflexivity|].
  destruct (negb _); apply IH; reflexivity.
Qed.

Lemma set_version_mask_run s :
  set_version_mask crc5 crc16_false 0xFFFFFFFF s
  = (Ok tt, emit s [version_mask_frame crc5]).
Proof.
  unfold set_version_mask. cbv zeta.
  change (Z.lor (Z.lor TYPE_CMD GROUP_ALL) CMD_WRITE) with 0x51.
  change (Z.land (Z.shiftr (Z.shiftr 0xFFFFFFFF 13) 8) 0xFF) with 0xFF.
  change (Z.land (Z.shiftr 0xFFFFFFFF 13) 0xFF) with 0xFF.
  apply send_command; send_side.
Qed.

Lemma send_chain_inactive_run s :
  send_chain_inactive crc5 crc16_false s
  = (Ok tt, emit s [chain_inactive_frame crc5]).
Proof.
  unfold send_chain_inactive.
  change (Z.lor (Z.lor TYPE_CMD GROUP_ALL) CMD_INACTIVE) with 0x53.
  apply send_command; send_side.
Qed.

Lemma set_chip_address_run addr s :
  0 <= addr < 256 ->
  set_chip_address crc5 crc16_false addr s
  = (Ok tt, emit s [set_address_frame crc5 addr]).
Proof.
  intros Ha. unfold set_chip_address.
  change (Z.lor (Z.lor TYPE_CMD GROUP_SINGLE) CMD_SETADDRESS) with 0x40.
  apply send_command; send_side.
Qed.

Lemma send_simple_run data s :
  Forall byte_range data -> send_simple data s = (Ok tt, emit s [data]).
Proof.
  intros Hd. unfold send_simple, bindM, lift.
  now rewrite (forallb_is_byte data Hd).
Qed.

(** [count_asic_chips] on a transport whose reads are [responses], then
    [None]. *)
Lemma count_asic_chips_run expected len s responses rest :
  rx s = map Some responses ++ None :: rest ->
  count_asic_chips crc5 crc16_false expected len s
  = (Ok (Z.of_nat (count_matching responses)),
     with_rx (emit s [command_frame crc5 0x52 [0x00; 0x00];
                      chain_inactive_frame crc5]) rest).
Proof.
  intros Hrx. unfold count_asic_chips.
  change (Z.lor (Z.lor TYPE_CMD GROUP_ALL) CMD_READ) with 0x52.
  step_send.
  set (s1 := emit s [command_frame crc5 0x52 [0; 0]]).
  assert (Hfuel : (length responses < S (length (rx s1)))%nat).
  { subst s1. cbn [emit rx]. rewrite Hrx, length_app, length_map.
    cbn [length]. lia. }
  rewrite (bindM_ok
             (fun s => count_asic_chips_loop (S (length (rx s))) len 0 s)
             _ s1 _ _
             (count_loop_done len responses _ 0 s1 rest Hrx Hfuel)).
  rewrite (bindM_ok _ _ _ _ _ (send_chain_inactive_run _)).
  subst s1.
  unfold ret, with_rx, emit. cbn [tx rx logs].
  now rewrite <- app_assoc.
Qed.

(** With a transport that never returns [None], [count_asic_chips] does
    not return. *)
Lemma count_asic_chips_blocked expected len s responses :
  rx s = map Some responses ->
  fst (count_asic_chips crc5 crc16_false expected len s) = Blocked.
Proof.
  intros Hrx. unfold count_asic_chips.
  change (Z.lor (Z.lor TYPE_CMD GROUP_ALL) CMD_READ) with 0x52.
  step_send. unfold bindM at 1.
  pose proof (count_loop_blocked len responses
                (S (length (rx (emit s [command_frame crc5 0x52 [0; 0]]))))
                0 (emit s [command_frame crc5 0x52 [0; 0]]) Hrx) as Hb.
  destruct (count_asic_chips_loop _ len 0 _) as [[n| |] s'];
    cbn [fst] in Hb; try discriminate Hb. reflexivity.
Qed.

(** The first three steps of [send_init]. *)
Lemma send_init_enumeration {A} (k : Z -> M A) expected s responses rest :
  rx s = map Some responses ++ None :: rest ->
  (for_each (range 3) (fun _ => set_version_mask crc5 crc16_false 0xFFFFFFFF) ;;;
   send_simple [0x55; 0xAA; 0x52; 0x05; 0x00; 0x00; 0x0A] ;;;
   chip_counter <-- count_asic_chips crc5 crc16_false expected 11 ;;
   k chip_counter)%io s
  = k (Z.of_nat (count_matching responses))
      (with_rx (emit s (enumeration_frames crc5)) rest).
Proof.
  intros Hrx.
  rewrite (bindM_ok _ _ _ _ _
             (for_each_emit (range 3) _ (fun _ => [version_mask_frame crc5])
                (fun _ s' _ => set_version_mask_run s') s)).
  change (flat_map _ (range 3))
    with [version_mask_frame crc5; version_mask_frame crc5;
          version_mask_frame crc5].
  erewrite bindM_ok by (apply send_simple_run; byte_list).
  erewrite bindM_ok by (apply count_asic_chips_run; exact Hrx).
  f_equal. unfold with_rx, emit, enumeration_frames. cbn [tx rx logs].
  now rewrite <- !app_assoc.
Qed.

End EnumerationProofs.

(** ** [send_init] *)

Lemma in_range i n : In i (range n) -> 0 <= i < n.
Proof.
  unfold range. intros H. apply in_map_iff in H.
  destruct H as [k [<- Hk]]. apply in_seq in Hk. lia.
Qed.

Lemma flat_map_single {A B} (f : A -> B) (l : list A) :
  flat_map (fun x => [f x]) l = map f l.
Proof. induction l as [|x l IH]; cbn; congruence. Qed.

Lemma flat_map_of_map {A B C} (f : B -> list C) (g : A -> B) (l : list A) :
  flat_map f (map g l) = flat_map (fun x => f (g x)) l.
Proof. induction l as [|x l IH]; cbn; congruence. Qed.

(** [int(256 / chip_counter)] is the integer quotient, for the chip counts
    that leave a positive interval. *)
Lemma address_interval_spec n :
  1 <= n <= 256 -> bindO (py_truediv 256 n) py_int = Ok (256 / n).
Proof.
  intros Hn.
  assert (Hall : forallb interval_ok (range 257) = true)
    by (vm_compute; reflexivity).
  pose proof (range_bounded_forallb _ 257 Hall n ltac:(lia)) as H.
  unfold interval_ok in H.
  replace (n =? 0) with false in H by (symmetry; apply Z.eqb_neq; lia).
  cbn [orb] in H.
  destruct (bindO (py_truediv 256 n) py_int) as [q| |]; try discriminate H.
  apply Z.eqb_eq in H. now subst q.
Qed.

Lemma chip_address_range n i :
  1 <= n <= 256 -> 0 <= i < n -> 0 <= i * (256 / n) < 256.
Proof.
  intros Hn Hi.
  pose proof (Z.mul_div_le 256 n ltac:(lia)) as Hle.
  assert (Hq : 1 <= 256 / n) by (apply Z.div_le_lower_bound; lia).
  nia.
Qed.

(** [get_difficulty_mask] never raises: it returns six bytes, of which the
    second is the register 0x14. *)
Lemma get_difficulty_mask_total difficulty :
  exists b2 b3 b4 b5,
    get_difficulty_mask difficulty = Ok [0x00; 0x14; b2; b3; b4; b5]
    /\ Forall byte_range [0x00; 0x14; b2; b3; b4; b5].
Proof.
  destruct (Z_le_gt_dec difficulty 1) as [Hsmall | Hbig].
  - exists 0, 0, 0, 0. split; [| byte_list].
    unfold get_difficulty_mask.
    rewrite (largest_power_of_two_small difficulty Hsmall). reflexivity.
  - destruct (largest_power_of_two_spec difficulty ltac:(lia))
      as [p [Hrun [[k [Hk ->]] _]]].
    pose proof (Z.pow_pos_nonneg 2 k ltac:(lia) Hk) as Hpos.
    eexists _, _, _, _. split.
    + unfold get_difficulty_mask. rewrite Hrun. cbn [bindO].
      apply difficulty_mask_of_power. lia.
    + repeat (apply Forall_cons;
              [first [ unfold byte_range; lia
                     | apply reverse_bits_spec, mask_byte_range ] |]).
      apply Forall_nil.
Qed.

Lemma frequency_payload_bytes target st :
  pll_search target = Ok st -> fb_divider st <> 0 ->
  Forall byte_range (frequency_payload st).
Proof.
  intros Hrun Hnz.
  destruct (pll_search_inv target st Hrun)
    as [(Hz & _) | (_ & Hadm & _ & _ & pre & post & E & _)]; [contradiction|].
  assert (Hin : In (best_of st) pll_candidates)
    by (rewrite E; apply in_or_app; right; left; reflexivity).
  destruct (pll_candidates_in_range _ Hin) as (Hr & _).
  destruct Hadm as (_ & _ & Hfb & _).
  cbn [best_of cand_ref fst snd] in Hr.
  assert (Hnib : forall x, 0 <= Z.land x 0xf < 16).
  { intros x. change 0xf with (Z.ones 4). rewrite Z.land_ones by lia.
    apply Z.mod_pos_bound. reflexivity. }
  unfold frequency_payload.
  repeat apply Forall_cons; try apply Forall_nil; unfold byte_range; try lia.
  - destruct (fleb _ _); lia.
  - rewrite Z.shiftl_mul_pow2 by lia. change (2 ^ 4) with 16.
    pose proof (Hnib (post_divider1 st - 1)).
    pose proof (Hnib (post_divider2 st - 1)). lia.
Qed.

Section InitProofs.

Variable crc5 : list Z -> Z.
Variable crc16_false : list Z -> Z.
Hypothesis crc5_u8 : forall data, 0 <= crc5 data < 256.

Lemma logging_run r s :
  logging r s = (Ok tt, mkIO (tx s) (rx s) (logs s ++ [r])).
Proof. reflexivity. Qed.

(** [send_hash_frequency]: the write of the divider set when one was
    found, and a log record; the exception of the search otherwise. *)
Lemma send_hash_frequency_run target s :
  send_hash_frequency crc5 crc16_false target s
  = (match pll_search target with
     | Ok _ => Ok tt
     | Raise e => Raise e
     | Blocked => Blocked
     end,
     mkIO (tx s ++ frequency_frames crc5 (pll_search target)) (rx s)
          (logs s ++ closing_logs (pll_search target))).
Proof.
  unfold send_hash_frequency. cbv zeta.
  pose proof (frequency_payload_bytes target) as Hbytes.
  destruct (pll_search target) as [st| |] eqn:Hrun;
    unfold bindM at 1, lift; cbn [frequency_frames closing_logs].
  2,3: (destruct s; cbn [tx rx logs]; now rewrite !app_nil_r).
  destruct (fb_divider st =? 0) eqn:Hfb.
  - rewrite logging_run. now rewrite app_nil_r.
  - apply Z.eqb_neq in Hfb. specialize (Hbytes st eq_refl Hfb).
    change (Z.lor (Z.lor TYPE_CMD GROUP_ALL) CMD_WRITE) with 0x51.
    assert (Hbuf :
      (if fleb (float_of_int 2400)
               (fdiv (float_of_int (fb_divider st * 25))
                     (float_of_int (ref_divider st)))
       then list_setitem
              (list_setitem
                 (list_setitem
                    (list_setitem [0; 8; 64; 160; 2; 65] 3 (fb_divider st))
                    4 (ref_divider st))
                 5 (Z.shiftl (Z.land (post_divider1 st - 1) 15) 4
                    + Z.land (post_divider2 st - 1) 15))
              2 80
       else list_setitem
              (list_setitem
                 (list_setitem [0; 8; 64; 160; 2; 65] 3 (fb_divider st))
                 4 (ref_divider st))
              5 (Z.shiftl (Z.land (post_divider1 st - 1) 15) 4
                 + Z.land (post_divider2 st - 1) 15))
      = frequency_payload st).
    { unfold frequency_payload. destruct (fleb _ _); reflexivity. }
    rewrite Hbuf.
    erewrite bindM_ok
      by (apply send_command; first [assumption | lia | reflexivity | idtac];
          unfold frequency_payload; cbn [length]; lia).
    rewrite logging_run. unfold emit. cbn [tx rx logs]. reflexivity.
Qed.

Lemma bindM_lift_ok {A B} (a : A) (k : A -> M B) s :
  bindM (lift (Ok a)) k s = k a s.
Proof. reflexivity. Qed.

(** The five writes of step PerChipTuning for one chip. *)
Lemma chip_tuning_run addr s :
  0 <= addr < 256 ->
  (send crc5 crc16_false 0x41 [addr; 0xA8; 0x00; 0x07; 0x01; 0xF0] ;;;
   send crc5 crc16_false 0x41 [addr; 0x18; 0xF0; 0x00; 0xC1; 0x00] ;;;
   send crc5 crc16_false 0x41 [addr; 0x3C; 0x80; 0x00; 0x8B; 0x00] ;;;
   send crc5 crc16_false 0x41 [addr; 0x3C; 0x80; 0x00; 0x80; 0x0C] ;;;
   send crc5 crc16_false 0x41 [addr; 0x3C; 0x80; 0x00; 0x82; 0xAA])%io s
  = (Ok tt, emit s (chip_tuning_frames crc5 addr)).
Proof.
  intros Ha. do 4 step_send.
  rewrite (send_command crc5 crc16_false crc5_u8) by send_side.
  now rewrite !emit_emit.
Qed.

(** [send_init] on a chain of 1 to 256 chips: the frames of every step, in
    order; the outcome is that of the divider search. *)
Lemma send_init_run frequency expected difficulty s responses rest :
  rx s = map Some responses ++ None :: rest ->
  let n := Z.of_nat (count_matching responses) in
  1 <= n <= 256 ->
  exists mask,
    get_difficulty_mask difficulty = Ok mask
    /\ send_init crc5 crc16_false frequency expected difficulty s
       = (closing_outcome (pll_search frequency) n,
          mkIO (tx s ++ enumeration_frames crc5 ++ config_frames crc5
                ++ address_frames crc5 n (256 / n)
                ++ defaults_frames crc5 mask
                ++ tuning_frames crc5 n (256 / n)
                ++ misc_frames crc5
                ++ closing_frames crc5 (pll_search frequency))
               rest
               (logs s ++ closing_logs (pll_search frequency))).
Proof.
  intros Hrx n Hn.
  destruct (get_difficulty_mask_total difficulty)
    as (b2 & b3 & b4 & b5 & Hmask & Hbytes).
  exists [0x00; 0x14; b2; b3; b4; b5]. split; [exact Hmask|].
  unfold send_init. cbv zeta.
  change (Z.lor (Z.lor TYPE_CMD GROUP_ALL) CMD_WRITE) with 0x51.
  change (Z.lor (Z.lor TYPE_CMD GROUP_SINGLE) CMD_WRITE) with 0x41.
  rewrite (send_init_enumeration crc5 crc16_false crc5_u8 _ expected s
             responses rest Hrx).
  fold n. replace (n =? 0) with false by (symmetry; apply Z.eqb_neq; lia).
  set (s1 := with_rx (emit s (enumeration_frames crc5)) rest).
  erewrite bindM_ok by (apply set_version_mask_run; assumption).
  do 2 step_send.
  erewrite bindM_ok by (apply send_chain_inactive_run; assumption).
  rewrite (address_interval_spec n Hn), bindM_lift_ok.
  erewrite bindM_ok
    by (apply (for_each_emit (range n) _
                 (fun i => [set_address_frame crc5 (i * (256 / n))]));
        intros i s' Hi; apply set_chip_address_run;
        [assumption | apply chip_address_range;
                      [exact Hn | exact (in_range i n Hi)]]).
  do 2 step_send.
  rewrite Hmask, bindM_lift_ok.
  erewrite bindM_ok by (apply send_command; first [assumption | lia | reflexivity]).
  step_send.
  erewrite bindM_ok
    by (apply (for_each_emit (range n) _
                 (fun i => chip_tuning_frames crc5 (i * (256 / n))));
        intros i s' Hi; cbv zeta; apply chip_tuning_run, chip_address_range;
        [exact Hn | exact (in_range i n Hi)]).
  do 4 step_send.
  unfold bindM at 1. rewrite send_hash_frequency_run.
  rewrite flat_map_single, <- (map_map (fun i => i * (256 / n))).
  rewrite <- (flat_map_of_map (chip_tuning_frames crc5)
                (fun i => i * (256 / n)) (range n)).
  fold (chip_addresses n (256 / n)).
  fold (address_frames crc5 n (256 / n)) (tuning_frames crc5 n (256 / n)).
  rewrite !emit_emit. subst s1.
  destruct (pll_search frequency) as [st| |];
    cbn [closing_outcome closing_frames closing_logs];
    [step_send; unfold ret | |];
    unfold emit, with_rx; cbn [tx rx logs];
    rewrite ?app_nil_r, <- ?app_assoc; reflexivity.
Qed.

End InitProofs.

(** ** Which frames the steps write *)

Section FrameKinds.

Variable crc5 : list Z -> Z.

Lemma tuning_frames_kind n q (kind : list Z -> bool) :
  (forall addr, existsb kind (chip_tuning_frames crc5 addr) = false) ->
  existsb kind (tuning_frames crc5 n q) = false.
Proof.
  intros Hk. unfold tuning_frames.
  induction (chip_addresses n q) as [|a l IH]; [reflexivity|].
  cbn [flat_map]. now rewrite existsb_app, Hk, IH.
Qed.

Lemma address_frames_not_frequency n q :
  existsb is_frequency_write (address_frames crc5 n q) = false.
Proof.
  unfold address_frames.
  induction (chip_addresses n q) as [|a l IH]; [reflexivity | exact IH].
Qed.

Lemma closing_frames_not_address found :
  existsb is_set_address (closing_frames crc5 found) = false.
Proof.
  destruct found as [st| |]; try reflexivity.
  cbn [closing_frames frequency_frames].
  destruct (fb_divider st =? 0); reflexivity.
Qed.

End FrameKinds.

Lemma chip_addresses_nodup n q : q <> 0 -> NoDup (chip_addresses n q).
Proof.
  intros Hq. unfold chip_addresses, range.
  apply Finite.Injective_map_NoDup.
  - intros i j Hij. now apply Z.mul_cancel_r in Hij.
  - apply Finite.Injective_map_NoDup; [exact Nat2Z.inj | apply seq_NoDup].
Qed.

Lemma chip_addresses_bytes n :
  1 <= n <= 256 -> Forall byte_range (chip_addresses n (256 / n)).
Proof.
  intros Hn. apply Forall_forall. intros a Ha.
  unfold chip_addresses in Ha. apply in_map_iff in Ha.
  destruct Ha as [i [<- Hi]].
  exact (chip_address_range n i Hn (in_range i n Hi)).
Qed.

(** ** The claims on enumeration and initialization *)

(** C2, on the code.  A read that returns [b''] does not end the loop of
    [count_asic_chips]: with the reads (response, [b''], response, [None])
    the call consumes all four reads and returns 2, where stopping at the
    empty read would return 1 and leave two reads; and when the empty read
    is the last scripted one, the call is still in its loop. *)
Theorem count_asic_chips_empty_read :
  let timeout : option (list Z) := Some [] in
  let s := mkIO [] [Some chip_response; timeout; Some chip_response; None] [] in
  let blocked := mkIO [] [Some chip_response; timeout] [] in
  fst (count_asic_chips crc5_sample crc16_sample 1 11 s) = Ok 2
  /\ rx (snd (count_asic_chips crc5_sample crc16_sample 1 11 s)) = []
  /\ fst (count_asic_chips crc5_sample crc16_sample 1 11 blocked) = Blocked.
Proof. cbv zeta. repeat split; vm_compute; reflexivity. Qed.

(** C7.  When the enumeration counts no chip, [send_init] raises
    [Exception("No ASIC chips found")]; what it has written by then are the
    frames of the first three steps, with no set-address command among
    them. *)
Theorem send_init_no_chips :
  forall (crc5 crc16_false : list Z -> Z),
    (forall data, 0 <= crc5 data < 256) ->
    forall (frequency : float) (expected difficulty : Z) (s : io)
           (responses : list (list Z)) (rest : list (option (list Z))),
      rx s = map Some responses ++ None :: rest ->
      count_matching responses = 0%nat ->
      send_init crc5 crc16_false frequency expected difficulty s
      = (Raise (Exception "No ASIC chips found"),
         mkIO (tx s ++ enumeration_frames crc5) rest (logs s))
      /\ existsb is_set_address (enumeration_frames crc5) = false.
Proof.
  intros crc5 crc16_false H5 frequency expected difficulty s responses rest
         Hrx Hzero.
  split; [| reflexivity].
  unfold send_init. cbv zeta.
  rewrite (send_init_enumeration crc5 crc16_false H5 _ expected s
             responses rest Hrx).
  rewrite Hzero. reflexivity.
Qed.

Lemma send_init_no_chips_witness :
  let s := mkIO [] [Some [0x01; 0x02; 0x03]; None; Some chip_response] [] in
  rx s = map Some [[0x01; 0x02; 0x03]] ++ None :: [Some chip_response]
  /\ count_matching [[0x01; 0x02; 0x03]] = 0%nat
  /\ send_init crc5_sample crc16_sample (float_of_int 400) 1 16 s
     = (Raise (Exception "No ASIC chips found"),
        mkIO (enumeration_frames crc5_sample) [Some chip_response] []).
Proof.
  cbv zeta.
  assert (Hrx : rx (mkIO [] [Some [0x01; 0x02; 0x03]; None; Some chip_response] [])
                = map Some [[0x01; 0x02; 0x03]] ++ None :: [Some chip_response])
    by reflexivity.
  assert (Hz : count_matching [[0x01; 0x02; 0x03]] = 0%nat)
    by (vm_compute; reflexivity).
  split; [exact Hrx | split; [exact Hz |]].
  exact (proj1 (send_init_no_chips crc5_sample crc16_sample crc5_sample_u8
                  (float_of_int 400) 1 16 _ _ _ Hrx Hz)).
Defined.

(** The search ends without a divider set exactly when no candidate of the
    iteration is admissible. *)
Lemma pll_search_not_found target st :
  pll_search target = Ok st ->
  (fb_divider st = 0 <->
   forall c fb, In c pll_candidates -> ~ admissible target c fb).
Proof.
  intros Hrun.
  destruct (pll_search_inv target st Hrun)
    as [(Hz & _ & Hnone) | (Hnz & Hadm & _ & _ & pre & post & E & _)].
  - split; [intros _; exact Hnone | intros _; exact Hz].
  - split; [intros Hz; contradiction|].
    intros Hnone. exfalso.
    apply (Hnone (best_of st) (fb_divider st)); [| exact Hadm].
    rewrite E. apply in_or_app. right. left. reflexivity.
Qed.

(** C3 (amended).  When the divider search ends without a divider set,
    [send_init], on a chain of 1 to 256 chips, writes no frequency frame
    and logs an error, but it does not fail: it goes on with the commit
    frame and returns the chip count. *)
Theorem send_init_frequency_not_found :
  forall (crc5 crc16_false : list Z -> Z),
    (forall data, 0 <= crc5 data < 256) ->
    forall (frequency : float) (expected difficulty : Z) (s : io)
           (responses : list (list Z)) (rest : list (option (list Z)))
           (st : pll_state),
      rx s = map Some responses ++ None :: rest ->
      let n := Z.of_nat (count_matching responses) in
      1 <= n <= 256 ->
      pll_search frequency = Ok st ->
      fb_divider st = 0 ->
      exists frames,
        send_init crc5 crc16_false frequency expected difficulty s
        = (Ok n,
           mkIO (tx s ++ frames ++ [commit_frame crc5]) rest
                (logs s ++ [LogError]))
        /\ existsb is_frequency_write (frames ++ [commit_frame crc5]) = false.
Proof.
  intros crc5 crc16_false H5 frequency expected difficulty s responses rest st
         Hrx n Hn Hrun Hfb.
  destruct (send_init_run crc5 crc16_false H5 frequency expected difficulty s
              responses rest Hrx Hn) as (mask & Hmask & Hinit).
  fold n in Hinit.
  destruct (get_difficulty_mask_total difficulty)
    as (b2 & b3 & b4 & b5 & Hmask' & _).
  rewrite Hmask in Hmask'. inversion Hmask'. subst mask. clear Hmask'.
  rewrite Hrun in Hinit.
  cbn [closing_outcome closing_frames closing_logs frequency_frames] in Hinit.
  rewrite Hfb in Hinit. cbn [Z.eqb app] in Hinit.
  exists (enumeration_frames crc5 ++ config_frames crc5
          ++ address_frames crc5 n (256 / n)
          ++ defaults_frames crc5 [0x00; 0x14; b2; b3; b4; b5]
          ++ tuning_frames crc5 n (256 / n)
          ++ misc_frames crc5).
  split.
  - rewrite Hinit. now rewrite <- !app_assoc.
  - rewrite !existsb_app.
    rewrite address_frames_not_frequency.
    rewrite (tuning_frames_kind crc5 n (256 / n) is_frequency_write)
      by (intros addr; reflexivity).
    reflexivity.
Qed.

Lemma send_init_frequency_not_found_witness :
  let s := mkIO [] [Some chip_response; None] [] in
  let st := mkPLL 0 0 0 0 (float_of_int 10) (float_of_int 200) in
  rx s = map Some [chip_response] ++ None :: []
  /\ 1 <= Z.of_nat (count_matching [chip_response]) <= 256
  /\ pll_search (float_of_int 10) = Ok st
  /\ fb_divider st = 0
  /\ exists frames,
       send_init crc5_sample crc16_sample (float_of_int 10) 1 16 s
       = (Ok 1, mkIO (frames ++ [commit_frame crc5_sample]) [] [LogError])
       /\ existsb is_frequency_write (frames ++ [commit_frame crc5_sample])
          = false.
Proof.
  cbv zeta.
  assert (Hrx : rx (mkIO [] [Some chip_response; None] [])
                = map Some [chip_response] ++ None :: []) by reflexivity.
  assert (Hn : 1 <= Z.of_nat (count_matching [chip_response]) <= 256)
    by (vm_compute; split; discriminate).
  assert (Hrun : pll_search (float_of_int 10)
                 = Ok (mkPLL 0 0 0 0 (float_of_int 10) (float_of_int 200)))
    by (vm_compute; reflexivity).
  assert (Hfb : fb_divider (mkPLL 0 0 0 0 (float_of_int 10) (float_of_int 200)) = 0)
    by reflexivity.
  split; [exact Hrx | split; [exact Hn | split; [exact Hrun | split; [exact Hfb |]]]].
  exact (send_init_frequency_not_found crc5_sample crc16_sample crc5_sample_u8
           (float_of_int 10) 1 16 _ _ _ _ Hrx Hn Hrun Hfb).
Defined.

(** At 10 MHz the search keeps no divider set, and [send_init] returns the
    chip count all the same. *)
Lemma send_init_frequency_counterexample :
  let s := mkIO [] [Some chip_response; None] [] in
  let run := send_init crc5_sample crc16_sample (float_of_int 10) 1 16 s in
  (exists st, pll_search (float_of_int 10) = Ok st /\ fb_divider st = 0)
  /\ fst run = Ok 1
  /\ logs (snd run) = [LogError]
  /\ last (tx (snd run)) [] = commit_frame crc5_sample.
Proof.
  cbv zeta. split.
  - exists (mkPLL 0 0 0 0 (float_of_int 10) (float_of_int 200)).
    split; [vm_compute; reflexivity | reflexivity].
  - repeat split; vm_compute; reflexivity.
Qed.

(** C5 (amended).  For a chip count between 1 and 256, the Addressing step
    of [send_init] writes one set-address command per chip, chip [i]
    getting the address [i * (256 / chip_count)], and no other set-address
    command is written; the addresses are pairwise distinct bytes; for
    three chips they are 0, 85 and 170. *)
Theorem send_init_addressing :
  forall (crc5 crc16_false : list Z -> Z),
    (forall data, 0 <= crc5 data < 256) ->
    forall (frequency : float) (expected difficulty : Z) (s : io)
           (responses : list (list Z)) (rest : list (option (list Z))),
      rx s = map Some responses ++ None :: rest ->
      let n := Z.of_nat (count_matching responses) in
      1 <= n <= 256 ->
      let addresses := map (fun i => i * (256 / n)) (range n) in
      (exists before after,
         tx (snd (send_init crc5 crc16_false frequency expected difficulty s))
         = tx s ++ before
           ++ map (fun addr => command_frame crc5 0x40 [addr; 0x00]) addresses
           ++ after
         /\ existsb is_set_address before = false
         /\ existsb is_set_address after = false)
      /\ length addresses = Z.to_nat n
      /\ NoDup addresses
      /\ Forall byte_range addresses
      /\ map (fun i => i * (256 / 3)) (range 3) = [0; 85; 170].
Proof.
  intros crc5 crc16_false H5 frequency expected difficulty s responses rest
         Hrx n Hn addresses.
  destruct (send_init_run crc5 crc16_false H5 frequency expected difficulty s
              responses rest Hrx Hn) as (mask & Hmask & Hinit).
  fold n in Hinit.
  split; [| split; [| split; [| split]]].
  - exists (enumeration_frames crc5 ++ config_frames crc5),
           (defaults_frames crc5 mask ++ tuning_frames crc5 n (256 / n)
            ++ misc_frames crc5
            ++ closing_frames crc5 (pll_search frequency)).
    split; [| split].
    + rewrite Hinit. cbn [snd tx]. now rewrite <- !app_assoc.
    + reflexivity.
    + rewrite !existsb_app.
      rewrite (tuning_frames_kind crc5 n (256 / n) is_set_address)
        by (intros addr; reflexivity).
      rewrite closing_frames_not_address. reflexivity.
  - subst addresses. unfold range. now rewrite !length_map, length_seq.
  - apply chip_addresses_nodup.
    pose proof (Z.div_le_lower_bound 256 n 1 ltac:(lia) ltac:(lia)). lia.
  - exact (chip_addresses_bytes n Hn).
  - reflexivity.
Qed.

Lemma send_init_addressing_witness :
  let s := mkIO [] (map Some (repeat chip_response 3) ++ None :: []) [] in
  rx s = map Some (repeat chip_response 3) ++ None :: []
  /\ 1 <= Z.of_nat (count_matching (repeat chip_response 3)) <= 256
  /\ exists before after,
       tx (snd (send_init crc5_sample crc16_sample (float_of_int 400) 3 16 s))
       = tx s ++ before
         ++ map (fun addr => command_frame crc5_sample 0x40 [addr; 0x00])
              [0; 85; 170]
         ++ after
       /\ existsb is_set_address before = false
       /\ existsb is_set_address after = false.
Proof.
  cbv zeta.
  assert (Hrx : rx (mkIO [] (map Some (repeat chip_response 3) ++ None :: []) [])
                = map Some (repeat chip_response 3) ++ None :: [])
    by reflexivity.
  assert (Hn : 1 <= Z.of_nat (count_matching (repeat chip_response 3)) <= 256)
    by (vm_compute; split; discriminate).
  split; [exact Hrx | split; [exact Hn |]].
  exact (proj1 (send_init_addressing crc5_sample crc16_sample crc5_sample_u8
                  (float_of_int 400) 3 16 _ _ _ Hrx Hn)).
Defined.

(** With 257 responses the interval is 0: every chip gets the address 0. *)
Lemma send_init_addressing_counterexample :
  let s := mkIO [] (map Some (repeat chip_response 257) ++ [None]) [] in
  let run := send_init crc5_sample crc16_sample (float_of_int 400) 257 16 s in
  let addresses := map frame_address (filter is_set_address (tx (snd run))) in
  fst run = Ok 257
  /\ addresses = repeat 0 257
  /\ ~ NoDup addresses.
Proof.
  cbv zeta.
  set (run := send_init crc5_sample crc16_sample (float_of_int 400) 257 16 _).
  assert (H : fst run = Ok 257
              /\ map frame_address (filter is_set_address (tx (snd run)))
                 = repeat 0 257)
    by (vm_compute; split; reflexivity).
  destruct H as [H1 H2]. split; [exact H1 | split; [exact H2 |]].
  rewrite H2. change (repeat 0 257) with (0 :: 0 :: repeat 0 255).
  intros Hnd. inversion Hnd as [| x l Hnin _]. apply Hnin. left. reflexivity.
Qed.

(** ** [send]: errors and decoding *)

Section SendErrors.

Variable crc5 : list Z -> Z.
Variable crc16_false : list Z -> Z.

Lemma forallb_is_byte_false l :
  ~ Forall byte_range l -> forallb is_byte l = false.
Proof.
  intros H. destruct (forallb is_byte l) eqn:E; [| reflexivity].
  exfalso. apply H. apply Forall_forall. intros v Hv.
  rewrite forallb_forall in E. specialize (E v Hv).
  unfold is_byte in E. apply andb_true_iff in E. destruct E as [E1 E2].
  apply Z.leb_le in E1. apply Z.ltb_lt in E2. unfold byte_range. lia.
Qed.

(** A header or a payload element that is not a byte stops [send] at the
    assignment into the buffer. *)
Lemma send_buf_value_error header data :
  ~ byte_range header \/ ~ Forall byte_range data ->
  send_buf crc5 crc16_false header data = Raise ValueError.
Proof.
  intros Hbad. unfold send_buf. fold (is_job header).
  assert (Hroom : exists k,
    (if (if is_job header then TYPE_JOB else TYPE_CMD) =? TYPE_JOB
     then (length data + 6)%nat else (length data + 5)%nat)
    = (length data + (4 + k))%nat).
  { destruct (is_job header); [exists 2%nat | exists 1%nat]; reflexivity. }
  destruct Hroom as [k ->]. cbv zeta.
  rewrite bytearray_room.
  set (rest := bytearray (length data) ++ bytearray k).
  change (bytearray 4 ++ rest) with ([] ++ 0 :: [0; 0; 0] ++ rest).
  rewrite setitem_middle by (lia || reflexivity). cbn [bindO].
  change ([] ++ 85 :: [0; 0; 0] ++ rest) with ([85] ++ 0 :: [0; 0] ++ rest).
  rewrite setitem_middle by (lia || reflexivity). cbn [bindO].
  change ([85] ++ 170 :: [0; 0] ++ rest) with ([85; 170] ++ 0 :: [0] ++ rest).
  destruct (is_byte header) eqn:Hh.
  2:{ unfold setitem at 1. rewrite Hh. reflexivity. }
  assert (Hhr : 0 <= header < 256).
  { unfold is_byte in Hh. apply andb_true_iff in Hh. destruct Hh as [E1 E2].
    apply Z.leb_le in E1. apply Z.ltb_lt in E2. lia. }
  rewrite setitem_middle by (lia || reflexivity). cbn [bindO].
  set (len := if (if is_job header then TYPE_JOB else TYPE_CMD) =? TYPE_JOB
              then Z.of_nat (length data) + 4 else Z.of_nat (length data) + 3).
  destruct (is_byte len) eqn:Hl.
  2:{ unfold setitem at 1. rewrite Hl. reflexivity. }
  assert (Hlr : 0 <= len < 256).
  { unfold is_byte in Hl. apply andb_true_iff in Hl. destruct Hl as [E1 E2].
    apply Z.leb_le in E1. apply Z.ltb_lt in E2. lia. }
  change ([85; 170] ++ header :: [0] ++ rest)
    with ([85; 170; header] ++ 0 :: rest).
  rewrite setitem_middle by (lia || reflexivity). cbn [bindO].
  unfold setslice.
  rewrite forallb_is_byte_false; [reflexivity|].
  destruct Hbad as [Hbad | Hbad]; [| exact Hbad].
  exfalso. apply Hbad. exact Hhr.
Qed.

End SendErrors.

(** X1.  [send] with a header or a payload element outside [0, 255]
    raises [ValueError] and writes nothing; so does [set_chip_address]
    with an address outside [0, 255]. *)
Theorem send_rejects_non_bytes :
  forall (crc5 crc16_false : list Z -> Z) (s : io),
    (forall header data,
       ~ byte_range header \/ ~ Forall byte_range data ->
       send crc5 crc16_false header data s = (Raise ValueError, s))
    /\ (forall chipAddr,
          ~ byte_range chipAddr ->
          set_chip_address crc5 crc16_false chipAddr s = (Raise ValueError, s)).
Proof.
  intros crc5 crc16_false s. split.
  - intros header data Hbad. unfold send, bindM, lift.
    now rewrite (send_buf_value_error crc5 crc16_false header data Hbad).
  - intros chipAddr Hbad. unfold set_chip_address, send, bindM, lift.
    rewrite send_buf_value_error; [reflexivity|].
    right. intros H. inversion H. contradiction.
Qed.

Lemma send_rejects_non_bytes_witness :
  ~ byte_range 256 /\
  set_chip_address crc5_sample crc16_sample 256 (mkIO [] [] [])
  = (Raise ValueError, mkIO [] [] []).
Proof.
  assert (H : ~ byte_range 256) by (unfold byte_range; lia).
  split; [exact H |].
  exact (proj2 (send_rejects_non_bytes crc5_sample crc16_sample (mkIO [] [] []))
           256 H).
Defined.

(** X2.  What [send] writes can be read back: the buffer starts with the
    sync pair, its length field counts the bytes after the sync pair, its
    third byte is the header, and the bytes between the length field and
    the checksum are the payload. *)
Theorem send_frame_decodes :
  forall (crc5 crc16_false : list Z -> Z),
    (forall data, 0 <= crc5 data < 256) ->
    (forall data, 0 <= crc16_false data < 65536) ->
    forall (header : Z) (payload : list Z) (s : io),
      0 <= header < 256 ->
      Forall byte_range payload ->
      Z.of_nat (length payload) + (if is_job header then 4 else 3) < 256 ->
      exists frame,
        send crc5 crc16_false header payload s = (Ok tt, emit s [frame])
        /\ frame_ok frame
        /\ frame_header frame = header
        /\ frame_payload (if is_job header then 2 else 1) frame = payload.
Proof.
  intros crc5 crc16_false H5 H16 header payload s Hh Hp Hlen.
  destruct (is_job header) eqn:Hj.
  - exists (job_frame crc16_false header payload). split.
    { unfold send, bindM, lift.
      now rewrite (send_buf_job crc5 crc16_false H16 header payload Hh Hp Hj Hlen). }
    unfold job_frame.
    set (c := crc16_false _). pose proof (H16 ([header; Z.of_nat (length payload) + 4] ++ payload)) as Hc.
    fold c in Hc.
    split; [split; [reflexivity | split] | split].
    + unfold frame_length_field. cbn [app nth length].
      rewrite length_app. cbn [length]. lia.
    + repeat (apply Forall_cons; [unfold byte_range; lia |]).
      apply Forall_app. split; [exact Hp |].
      repeat apply Forall_cons; try apply Forall_nil; unfold byte_range.
      * split; [apply Z.div_pos; lia | apply Z.div_lt_upper_bound; lia].
      * apply Z.mod_pos_bound. lia.
    + reflexivity.
    + unfold frame_payload, frame_length_field. cbn [app nth skipn].
      replace (Z.to_nat (Z.of_nat (length payload) + 4 - 2 - 2))
        with (length payload) by lia.
      apply firstn_length_app.
  - exists (command_frame crc5 header payload). split.
    { unfold send, bindM, lift.
      now rewrite (send_buf_command crc5 crc16_false H5 header payload Hh Hp Hj Hlen). }
    unfold command_frame.
    split; [split; [reflexivity | split] | split].
    + unfold frame_length_field. cbn [app nth length].
      rewrite length_app. cbn [length]. lia.
    + repeat (apply Forall_cons; [unfold byte_range; lia |]).
      apply Forall_app. split; [exact Hp |].
      apply Forall_cons; [apply H5 | apply Forall_nil].
    + reflexivity.
    + unfold frame_payload, frame_length_field. cbn [app nth skipn].
      replace (Z.to_nat (Z.of_nat (length payload) + 3 - 2 - 1))
        with (length payload) by lia.
      apply firstn_length_app.
Qed.

Lemma send_frame_decodes_witness :
  0 <= 0x21 < 256 /\ Forall byte_range [1; 2; 3] /\
  Z.of_nat (length [1; 2; 3]) + (if is_job 0x21 then 4 else 3) < 256 /\
  exists frame,
    send crc5_sample crc16_sample 0x21 [1; 2; 3] (mkIO [] [] [])
    = (Ok tt, emit (mkIO [] [] []) [frame])
    /\ frame_ok frame
    /\ frame_header frame = 0x21
    /\ frame_payload 2 frame = [1; 2; 3].
Proof.
  assert (Hh : 0 <= 0x21 < 256) by lia.
  assert (Hp : Forall byte_range [1; 2; 3])
    by (repeat constructor; unfold byte_range; lia).
  assert (Hl : Z.of_nat (length [1; 2; 3]) + (if is_job 0x21 then 4 else 3) < 256)
    by (vm_compute; reflexivity).
  split; [exact Hh | split; [exact Hp | split; [exact Hl |]]].
  exact (send_frame_decodes crc5_sample crc16_sample crc5_sample_u8
           crc16_sample_u16 0x21 [1; 2; 3] (mkIO [] [] []) Hh Hp Hl).
Defined.

(** ** [set_version_mask] *)

(** X3.  For every integer mask, [set_version_mask] writes one Command
    frame to all chips, with the payload [0x00, 0xA4, 0x90, 0x00] followed
    by bits 21 to 28 and bits 13 to 20 of the mask, and never raises: the
    low 13 bits and the bits from 29 up do not reach the chip. *)
Theorem set_version_mask_frame :
  forall (crc5 crc16_false : list Z -> Z),
    (forall data, 0 <= crc5 data < 256) ->
    forall (version_mask : Z) (s : io),
      set_version_mask crc5 crc16_false version_mask s
      = (Ok tt,
         emit s [command_frame crc5 0x51
                   [0x00; 0xA4; 0x90; 0x00;
                    (version_mask / 2 ^ 21) mod 256;
                    (version_mask / 2 ^ 13) mod 256]]).
Proof.
  intros crc5 crc16_false H5 version_mask s.
  unfold set_version_mask. cbv zeta.
  change (Z.lor (Z.lor TYPE_CMD GROUP_ALL) CMD_WRITE) with 0x51.
  rewrite Z.shiftr_shiftr by lia. change (13 + 8) with 21.
  rewrite !Z.shiftr_div_pow2 by lia.
  change 0xFF with (Z.ones 8). rewrite !Z.land_ones by lia.
  change (2 ^ 8) with 256.
  pose proof (Z.mod_pos_bound (version_mask / 2 ^ 21) 256 ltac:(lia)).
  pose proof (Z.mod_pos_bound (version_mask / 2 ^ 13) 256 ltac:(lia)).
  apply send_command; send_side.
Qed.

Lemma set_version_mask_frame_witness :
  set_version_mask crc5_sample crc16_sample 0x1FFFE000 (mkIO [] [] [])
  = (Ok tt,
     mkIO [[0x55; 0xAA; 0x51; 0x09; 0x00; 0xA4; 0x90; 0x00; 0xFF; 0xFF; 0x1C]]
          [] []).
Proof.
  rewrite (set_version_mask_frame crc5_sample crc16_sample crc5_sample_u8).
  vm_compute. reflexivity.
Defined.

(** ** [count_asic_chips] *)

Lemma count_matching_bound responses :
  (count_matching responses <= length responses)%nat.
Proof. unfold count_matching. apply filter_length_le. Qed.

(** X4.  On a transport that answers [responses] and then [None],
    [count_asic_chips] returns the number of responses that carry the chip
    signature, whatever [expected_count] is; it consumes the reads up to
    the [None] and no more, and writes the read command before the loop
    and the chain-inactive command after it. *)
Theorem count_asic_chips_counts :
  forall (crc5 crc16_false : list Z -> Z),
    (forall data, 0 <= crc5 data < 256) ->
    forall (expected_count len : Z) (s : io)
           (responses : list (list Z)) (rest : list (option (list Z))),
      rx s = map Some responses ++ None :: rest ->
      count_asic_chips crc5 crc16_false expected_count len s
      = (Ok (Z.of_nat (count_matching responses)),
         mkIO (tx s ++ [command_frame crc5 0x52 [0x00; 0x00];
                        command_frame crc5 0x53 [0x00; 0x00]])
              rest (logs s))
      /\ 0 <= Z.of_nat (count_matching responses) <= Z.of_nat (length responses).
Proof.
  intros crc5 crc16_false H5 expected_count len s responses rest Hrx.
  split.
  - rewrite (count_asic_chips_run crc5 crc16_false H5 expected_count len s
               responses rest Hrx).
    reflexivity.
  - pose proof (count_matching_bound responses). lia.
Qed.

Lemma count_asic_chips_counts_witness :
  let s := mkIO [] [Some chip_response; Some [0x01]; Some chip_response;
                    None; Some chip_response] [] in
  rx s = map Some [chip_response; [0x01]; chip_response]
         ++ None :: [Some chip_response]
  /\ fst (count_asic_chips crc5_sample crc16_sample 1 11 s) = Ok 2
  /\ rx (snd (count_asic_chips crc5_sample crc16_sample 1 11 s))
     = [Some chip_response].
Proof.
  cbv zeta.
  assert (Hrx : rx (mkIO [] [Some chip_response; Some [0x01]; Some chip_response;
                             None; Some chip_response] [])
                = map Some [chip_response; [0x01]; chip_response]
                  ++ None :: [Some chip_response]) by reflexivity.
  split; [exact Hrx |].
  destruct (count_asic_chips_counts crc5_sample crc16_sample crc5_sample_u8
              1 11 _ _ _ Hrx) as [E _].
  rewrite E. split; [vm_compute; reflexivity | reflexivity].
Defined.

(** ** The signature test *)

Lemma hexlify_app a b : hexlify (a ++ b) = (hexlify a ++ hexlify b)%string.
Proof. induction a as [|x a IH]; cbn; [reflexivity | now rewrite IH]. Qed.

Lemma hexlify_length bs : String.length (hexlify bs) = (2 * length bs)%nat.
Proof. induction bs as [|b bs IH]; cbn; [reflexivity | rewrite IH; lia]. Qed.

Lemma substring_at_append (a needle b : string) :
  substring (String.length a) (String.length needle) (a ++ needle ++ b)%string
  = needle.
Proof.
  induction a as [|c a IH]; cbn [String.length append substring].
  - induction needle as [|c needle IH]; cbn [String.length append].
    + destruct b; reflexivity.
    + cbn [substring]. now rewrite IH.
  - exact IH.
Qed.

Lemma substring_length_le (s : string) :
  forall n m, (String.length (substring n m s) <= String.length s)%nat.
Proof.
  induction s as [|c s IH]; intros n m.
  - destruct n, m; cbn; lia.
  - destruct n as [|n].
    + destruct m as [|m]; cbn [substring String.length]; [lia|].
      specialize (IH 0%nat m). lia.
    + cbn [substring String.length]. specialize (IH n m). lia.
Qed.

Lemma str_in_inside (a needle b : string) :
  needle <> EmptyString -> str_in needle (a ++ needle ++ b) = true.
Proof.
  intros Hne. unfold str_in.
  destruct (index 0 needle (a ++ needle ++ b)) eqn:E; [reflexivity|].
  exfalso.
  apply (index_correct3 0 (String.length a) needle _ E Hne); [lia|].
  apply substring_at_append.
Qed.

Lemma str_in_too_short (needle hay : string) :
  (String.length hay < String.length needle)%nat -> str_in needle hay = false.
Proof.
  intros Hlen. unfold str_in.
  destruct (index 0 needle hay) as [m|] eqn:E; [| reflexivity].
  exfalso. apply index_correct1 in E.
  pose proof (substring_length_le hay m (String.length needle)) as Hle.
  rewrite E in Hle. lia.
Qed.

(** X5.  A response is counted as a chip whenever the six bytes AA 55 13
    70 00 00 occur in it, at any offset, and never when it has fewer than
    six bytes; the empty response of a timeout is not counted. *)
Theorem chip_signature_test :
  (forall before after : list Z,
     matches_chip_id (before ++ [0xAA; 0x55; 0x13; 0x70; 0x00; 0x00] ++ after)
     = true)
  /\ (forall bs : list Z, (length bs < 6)%nat -> matches_chip_id bs = false).
Proof.
  split.
  - intros before after. unfold matches_chip_id.
    rewrite !hexlify_app.
    change (hexlify [0xAA; 0x55; 0x13; 0x70; 0x00; 0x00]) with chip_id_response.
    apply str_in_inside. discriminate.
  - intros bs Hlen. unfold matches_chip_id.
    apply str_in_too_short. rewrite hexlify_length.
    change (String.length chip_id_response) with 12%nat. lia.
Qed.

Lemma chip_signature_test_witness :
  let bs : list Z := [0xAA; 0x55; 0x13] in
  (length bs < 6)%nat /\ matches_chip_id bs = false.
Proof.
  cbv zeta.
  assert (H : (length [0xAA; 0x55; 0x13]%Z < 6)%nat) by (cbn; lia).
  split; [exact H | exact (proj2 chip_signature_test _ H)].
Defined.

(** ** A transport that never returns [None] *)

Lemma bindM_blocked {A B} (m : M A) (k : A -> M B) s s' :
  m s = (Blocked, s') -> bindM m k s = (Blocked, s').
Proof. intros E. unfold bindM. now rewrite E. Qed.

Lemma count_loop_blocked_state len (responses : list (list Z)) :
  forall fuel chip_counter s,
    rx s = map Some responses ->
    (length responses < fuel)%nat ->
    count_asic_chips_loop fuel len chip_counter s = (Blocked, with_rx s []).
Proof.
  induction responses as [|bs responses IH]; intros fuel chip_counter s Hrx Hfuel;
    (destruct fuel as [|fuel]; [cbn in Hfuel; lia|]);
    cbn [count_asic_chips_loop]; unfold bindM, serial_rx_func;
    rewrite Hrx; cbn [map].
  - destruct s as [t r l]. cbn [rx] in Hrx. subst r. reflexivity.
  - destruct (negb _);
      rewrite (IH fuel _ _) by (cbn [rx length] in *; auto; lia);
      reflexivity.
Qed.

Section BlockedProofs.

Variable crc5 : list Z -> Z.
Variable crc16_false : list Z -> Z.
Hypothesis crc5_u8 : forall data, 0 <= crc5 data < 256.

Lemma count_asic_chips_blocked_state expected len s responses :
  rx s = map Some responses ->
  count_asic_chips crc5 crc16_false expected len s
  = (Blocked, with_rx (emit s [command_frame crc5 0x52 [0x00; 0x00]]) []).
Proof.
  intros Hrx. unfold count_asic_chips.
  change (Z.lor (Z.lor TYPE_CMD GROUP_ALL) CMD_READ) with 0x52.
  step_send.
  set (s1 := emit s [command_frame crc5 0x52 [0; 0]]).
  assert (Hfuel : (length responses < S (length (rx s1)))%nat).
  { subst s1. cbn [emit rx]. rewrite Hrx, length_map. lia. }
  apply (bindM_blocked
           (fun s => count_asic_chips_loop (S (length (rx s))) len 0 s)).
  exact (count_loop_blocked_state len responses _ 0 s1 Hrx Hfuel).
Qed.

End BlockedProofs.

(** X6.  On a transport whose reads always return a [bytes] object, as
    the [serial_rx_func] of [send_init_bm1370] does, [send_init] does not
    return: it writes the three version-mask frames, the reset frame and
    the read command, uses up every read, and stays in the loop of
    [count_asic_chips]; the chain-inactive command is never written. *)
Theorem send_init_never_returns :
  forall (crc5 crc16_false : list Z -> Z),
    (forall data, 0 <= crc5 data < 256) ->
    forall (frequency : float) (expected difficulty : Z) (s : io)
           (responses : list (list Z)),
      rx s = map Some responses ->
      send_init crc5 crc16_false frequency expected difficulty s
      = (Blocked,
         mkIO (tx s ++ [version_mask_frame crc5; version_mask_frame crc5;
                        version_mask_frame crc5;
                        [0x55; 0xAA; 0x52; 0x05; 0x00; 0x00; 0x0A];
                        command_frame crc5 0x52 [0x00; 0x00]])
              [] (logs s)).
Proof.
  intros crc5 crc16_false H5 frequency expected difficulty s responses Hrx.
  unfold send_init. cbv zeta.
  rewrite (bindM_ok _ _ _ _ _
             (for_each_emit (range 3) _ (fun _ => [version_mask_frame crc5])
                (fun _ s' _ => set_version_mask_run crc5 crc16_false H5 s') s)).
  change (flat_map _ (range 3))
    with [version_mask_frame crc5; version_mask_frame crc5;
          version_mask_frame crc5].
  erewrite bindM_ok by (apply send_simple_run; byte_list).
  erewrite bindM_blocked
    by (apply (count_asic_chips_blocked_state crc5 crc16_false H5
                 expected 11 _ responses); exact Hrx).
  unfold with_rx, emit. cbn [tx rx logs].
  now rewrite <- !app_assoc.
Qed.

Lemma send_init_never_returns_witness :
  let s := mkIO [] [Some chip_response; Some []; Some []] [] in
  rx s = map Some [chip_response; []; []]
  /\ fst (send_init crc5_sample crc16_sample (float_of_int 400) 1 16 s)
     = Blocked.
Proof.
  cbv zeta.
  assert (Hrx : rx (mkIO [] [Some chip_response; Some []; Some []] [])
                = map Some [chip_response; []; []]) by reflexivity.
  split; [exact Hrx |].
  now rewrite (send_init_never_returns crc5_sample crc16_sample crc5_sample_u8
                 (float_of_int 400) 1 16 _ _ Hrx).
Defined.

(** ** [send_init]: the whole sequence *)

(** X7.  On a chain of 1 to 256 chips and for a frequency with a divider
    set, [send_init] writes, in order, the frames of the thirteen steps:
    enumeration, configuration, one set-address command per chip, the
    defaults with the difficulty payload, five tuning writes per chip at
    the same addresses, the four miscellaneous writes, the frequency write
    and the commit; that is 20 + 6 * chip_count frames.  It returns the
    chip count, logs one info record and leaves the reads after the
    [None] untouched. *)
Theorem send_init_sequence :
  forall (crc5 crc16_false : list Z -> Z),
    (forall data, 0 <= crc5 data < 256) ->
    forall (frequency : float) (expected difficulty : Z) (s : io)
           (responses : list (list Z)) (rest : list (option (list Z)))
           (st : pll_state),
      rx s = map Some responses ++ None :: rest ->
      let n := Z.of_nat (count_matching responses) in
      1 <= n <= 256 ->
      pll_search frequency = Ok st ->
      fb_divider st <> 0 ->
      exists mask frames,
        get_difficulty_mask difficulty = Ok mask
        /\ frames
           = enumeration_frames crc5 ++ config_frames crc5
             ++ address_frames crc5 n (256 / n)
             ++ defaults_frames crc5 mask
             ++ tuning_frames crc5 n (256 / n)
             ++ misc_frames crc5
             ++ [command_frame crc5 0x51 (frequency_payload st);
                 commit_frame crc5]
        /\ send_init crc5 crc16_false frequency expected difficulty s
           = (Ok n, mkIO (tx s ++ frames) rest (logs s ++ [LogInfo]))
        /\ Z.of_nat (length frames) = 20 + 6 * n.
Proof.
  intros crc5 crc16_false H5 frequency expected difficulty s responses rest st
         Hrx n Hn Hrun Hfb.
  destruct (send_init_run crc5 crc16_false H5 frequency expected difficulty s
              responses rest Hrx Hn) as (mask & Hmask & Hinit).
  fold n in Hinit.
  rewrite Hrun in Hinit.
  cbn [closing_outcome closing_frames closing_logs frequency_frames] in Hinit.
  replace (fb_divider st =? 0) with false in Hinit
    by (symmetry; apply Z.eqb_neq; exact Hfb).
  cbn [app] in Hinit.
  eexists mask, _. split; [exact Hmask |]. split; [reflexivity |].
  split; [exact Hinit |].
  rewrite !length_app.
  unfold address_frames, tuning_frames, chip_addresses, range.
  rewrite !length_map, length_seq.
  assert (Htune : forall l : list Z,
            length (flat_map (chip_tuning_frames crc5) l) = (5 * length l)%nat).
  { induction l as [|a l IH]; [reflexivity|].
    cbn [flat_map]. rewrite length_app, IH. cbn [chip_tuning_frames length]. lia. }
  rewrite Htune, !length_map, length_seq.
  cbn [enumeration_frames config_frames defaults_frames misc_frames length].
  lia.
Qed.

Lemma send_init_sequence_witness :
  let s := mkIO [] [Some chip_response; Some chip_response; None] [] in
  let st := mkPLL 224 7 1 2 (S754_zero false) (float_of_int 400) in
  rx s = map Some [chip_response; chip_response] ++ None :: []
  /\ 1 <= Z.of_nat (count_matching [chip_response; chip_response]) <= 256
  /\ pll_search (float_of_int 400) = Ok st
  /\ fb_divider st <> 0
  /\ fst (send_init crc5_sample crc16_sample (float_of_int 400) 1 16 s) = Ok 2
  /\ length (tx (snd (send_init crc5_sample crc16_sample (float_of_int 400) 1 16 s)))
     = 32%nat.
Proof.
  cbv zeta.
  assert (Hrx : rx (mkIO [] [Some chip_response; Some chip_response; None] [])
                = map Some [chip_response; chip_response] ++ None :: [])
    by reflexivity.
  assert (Hn : 1 <= Z.of_nat (count_matching [chip_response; chip_response]) <= 256)
    by (vm_compute; split; discriminate).
  assert (Hrun : pll_search (float_of_int 400)
                 = Ok (mkPLL 224 7 1 2 (S754_zero false) (float_of_int 400)))
    by (vm_compute; reflexivity).
  assert (Hfb : fb_divider (mkPLL 224 7 1 2 (S754_zero false) (float_of_int 400)) <> 0)
    by (cbn; lia).
  split; [exact Hrx | split; [exact Hn | split; [exact Hrun | split; [exact Hfb |]]]].
  destruct (send_init_sequence crc5_sample crc16_sample crc5_sample_u8
              (float_of_int 400) 1 16 _ _ _ _ Hrx Hn Hrun Hfb)
    as (mask & frames & _ & _ & E & Hlen).
  rewrite E. cbn [fst snd tx app]. split; [vm_compute; reflexivity |].
  apply Nat2Z.inj. rewrite Hlen. vm_compute. reflexivity.
Defined.

(** ** [send_init]: every buffer is a frame *)

Section FrameOk.

Variable crc5 : list Z -> Z.
Hypothesis crc5_u8 : forall data, 0 <= crc5 data < 256.

Lemma command_frame_ok header payload :
  0 <= header < 256 -> Forall byte_range payload ->
  Z.of_nat (length payload) + 3 < 256 ->
  frame_ok (command_frame crc5 header payload).
Proof.
  intros Hh Hp Hlen. unfold command_frame.
  split; [reflexivity | split].
  - unfold frame_length_field. cbn [app nth length].
    rewrite length_app. cbn [length]. lia.
  - repeat (apply Forall_cons; [unfold byte_range; lia |]).
    apply Forall_app. split; [exact Hp |].
    apply Forall_cons; [apply crc5_u8 | apply Forall_nil].
Qed.

Ltac frame_list :=
  repeat (apply Forall_cons;
          [first [ apply command_frame_ok;
                   [lia | byte_list | cbn [length]; lia]
                 | (split; [reflexivity | split; [reflexivity | byte_list]]) ] |]);
  apply Forall_nil.

Lemma enumeration_frames_ok : Forall frame_ok (enumeration_frames crc5).
Proof. unfold enumeration_frames, version_mask_frame, chain_inactive_frame. frame_list. Qed.

Lemma config_frames_ok : Forall frame_ok (config_frames crc5).
Proof. unfold config_frames, version_mask_frame, chain_inactive_frame. frame_list. Qed.

Lemma misc_frames_ok : Forall frame_ok (misc_frames crc5).
Proof. unfold misc_frames. frame_list. Qed.

Lemma address_frames_ok n :
  1 <= n <= 256 -> Forall frame_ok (address_frames crc5 n (256 / n)).
Proof.
  intros Hn. unfold address_frames. apply Forall_map.
  pose proof (chip_addresses_bytes n Hn) as Hb.
  induction Hb as [|a l Ha _ IH]; constructor; [| exact IH].
  unfold set_address_frame, byte_range in *.
  apply command_frame_ok; [lia | byte_list | cbn [length]; lia].
Qed.

Lemma tuning_frames_ok n :
  1 <= n <= 256 -> Forall frame_ok (tuning_frames crc5 n (256 / n)).
Proof.
  intros Hn. unfold tuning_frames.
  pose proof (chip_addresses_bytes n Hn) as Hb.
  induction Hb as [|a l Ha _ IH]; [constructor|].
  cbn [flat_map]. apply Forall_app. split; [| exact IH].
  unfold chip_tuning_frames, byte_range in *. frame_list.
Qed.

Lemma closing_frames_ok frequency :
  Forall frame_ok (closing_frames crc5 (pll_search frequency)).
Proof.
  pose proof (frequency_payload_bytes frequency) as Hbytes.
  destruct (pll_search frequency) as [st| |]; try constructor.
  cbn [closing_frames frequency_frames].
  apply Forall_app. split.
  - destruct (fb_divider st =? 0) eqn:E; [constructor|].
    apply Z.eqb_neq in E.
    apply Forall_cons; [| apply Forall_nil].
    apply command_frame_ok; [lia | exact (Hbytes st eq_refl E) | cbn; lia].
  - unfold commit_frame. frame_list.
Qed.

End FrameOk.

(** X8.  Whatever the frequency and the difficulty, on a chain of at most
    256 chips every buffer that [send_init] hands to the transport is a
    frame: it starts with 55 AA, its length field counts the bytes after
    the sync pair, and all its elements are bytes.  This covers the raw
    reset frame of [send_simple] and the runs that end in an exception. *)
Theorem send_init_frames_ok :
  forall (crc5 crc16_false : list Z -> Z),
    (forall data, 0 <= crc5 data < 256) ->
    forall (frequency : float) (expected difficulty : Z) (s : io)
           (responses : list (list Z)) (rest : list (option (list Z))),
      rx s = map Some responses ++ None :: rest ->
      Z.of_nat (count_matching responses) <= 256 ->
      exists frames,
        tx (snd (send_init crc5 crc16_false frequency expected difficulty s))
        = tx s ++ frames
        /\ Forall frame_ok frames.
Proof.
  intros crc5 crc16_false H5 frequency expected difficulty s responses rest
         Hrx Hn.
  destruct (Z.eq_dec (Z.of_nat (count_matching responses)) 0) as [Hz | Hnz].
  - exists (enumeration_frames crc5). split.
    + unfold send_init. cbv zeta.
      rewrite (send_init_enumeration crc5 crc16_false H5 _ expected s
                 responses rest Hrx).
      rewrite Hz. reflexivity.
    + now apply enumeration_frames_ok.
  - assert (Hn' : 1 <= Z.of_nat (count_matching responses) <= 256) by lia.
    destruct (send_init_run crc5 crc16_false H5 frequency expected difficulty s
                responses rest Hrx Hn') as (mask & Hmask & Hinit).
    destruct (get_difficulty_mask_total difficulty)
      as (b2 & b3 & b4 & b5 & Hmask' & Hbytes).
    rewrite Hmask in Hmask'. inversion Hmask'. subst mask. clear Hmask'.
    eexists. split; [rewrite Hinit; reflexivity |].
    repeat (apply Forall_app; split).
    + now apply enumeration_frames_ok.
    + now apply config_frames_ok.
    + now apply address_frames_ok.
    + unfold defaults_frames.
      repeat (apply Forall_cons;
              [apply command_frame_ok;
               [exact H5 | lia | first [exact Hbytes | byte_list]
                | cbn [length]; lia] |]).
      apply Forall_nil.
    + now apply tuning_frames_ok.
    + now apply misc_frames_ok.
    + now apply closing_frames_ok.
Qed.

Lemma send_init_frames_ok_witness :
  let s := mkIO [] [Some chip_response; None] [] in
  rx s = map Some [chip_response] ++ None :: []
  /\ Z.of_nat (count_matching [chip_response]) <= 256
  /\ exists frames,
       tx (snd (send_init crc5_sample crc16_sample S754_nan 1 16 s))
       = tx s ++ frames
       /\ Forall frame_ok frames.
Proof.
  cbv zeta.
  assert (Hrx : rx (mkIO [] [Some chip_response; None] [])
                = map Some [chip_response] ++ None :: []) by reflexivity.
  assert (Hn : Z.of_nat (count_matching [chip_response]) <= 256)
    by (vm_compute; discriminate).
  split; [exact Hrx | split; [exact Hn |]].
  exact (send_init_frames_ok crc5_sample crc16_sample crc5_sample_u8
           S754_nan 1 16 _ _ _ Hrx Hn).
Defined.

(** ** [send_hash_frequency]: the frequency write *)

Lemma vco_test_spec ref fb :
  ref = 1 \/ ref = 2 -> 160 <= fb <= 239 ->
  fleb (float_of_int 2400)
       (fdiv (float_of_int (fb * 25)) (float_of_int ref))
  = (2400 * ref <=? 25 * fb).
Proof.
  intros Href Hfb.
  assert (Hall : forallb (fun fb => vco_test_ok 1 fb && vco_test_ok 2 fb)
                   (range 240) = true) by (vm_compute; reflexivity).
  pose proof (range_bounded_forallb _ 240 Hall fb ltac:(lia)) as H.
  apply andb_true_iff in H. destruct H as [H1 H2].
  destruct Href as [-> | ->];
    [apply Bool.eqb_prop in H1; exact H1 | apply Bool.eqb_prop in H2; exact H2].
Qed.

Lemma nibble_of_divider pd : 1 <= pd <= 7 -> Z.land (pd - 1) 0xf = pd - 1.
Proof.
  intros H. change 0xf with (Z.ones 4). rewrite Z.land_ones by lia.
  apply Z.mod_small. change (2 ^ 4) with 16. lia.
Qed.

(** X9.  When the search keeps a divider set, [send_hash_frequency] writes
    one frame to register 0x08 of all chips and logs one info record.  The
    payload is [0x00, 0x08, range, fb, ref, post], where [range] is 0x50
    exactly when 25 * fb >= 2400 * ref and 0x40 otherwise, and [post] holds
    [pd1 - 1] in its high nibble and [pd2 - 1] in its low nibble; [fb] is
    in [0xA0, 0xEF], [ref] is 1 or 2, and 1 <= pd2 <= pd1 <= 7. *)
Theorem send_hash_frequency_frame :
  forall (crc5 crc16_false : list Z -> Z),
    (forall data, 0 <= crc5 data < 256) ->
    forall (target : float) (st : pll_state) (s : io),
      pll_search target = Ok st ->
      fb_divider st <> 0 ->
      let fb := fb_divider st in
      let ref := ref_divider st in
      let pd1 := post_divider1 st in
      let pd2 := post_divider2 st in
      send_hash_frequency crc5 crc16_false target s
      = (Ok tt,
         mkIO (tx s ++ [command_frame crc5 0x51
                          [0x00; 0x08;
                           if 2400 * ref <=? 25 * fb then 0x50 else 0x40;
                           fb; ref; 16 * (pd1 - 1) + (pd2 - 1)]])
              (rx s) (logs s ++ [LogInfo]))
      /\ 0xA0 <= fb <= 0xEF
      /\ (ref = 1 \/ ref = 2)
      /\ 1 <= pd2 <= pd1 /\ pd1 <= 7.
Proof.
  intros crc5 crc16_false H5 target st s Hrun Hnz fb ref pd1 pd2.
  destruct (pll_search_inv target st Hrun)
    as [(Hz & _) | (_ & Hadm & _ & _ & pre & post & E & _)]; [contradiction|].
  assert (Hin : In (best_of st) pll_candidates)
    by (rewrite E; apply in_or_app; right; left; reflexivity).
  destruct (pll_candidates_in_range _ Hin) as (Hr & Hp1 & Hp2).
  destruct Hadm as (Hle & _ & Hfb & _).
  cbn [best_of cand_ref cand_pd1 cand_pd2 fst snd] in Hr, Hp1, Hp2, Hle.
  fold fb ref pd1 pd2 in Hr, Hp1, Hp2, Hle, Hfb.
  split; [| split; [exact Hfb | split; [exact Hr | split; lia]]].
  rewrite (send_hash_frequency_run crc5 crc16_false H5 target s), Hrun.
  cbn [frequency_frames closing_logs].
  replace (fb_divider st =? 0) with false
    by (symmetry; apply Z.eqb_neq; exact Hnz).
  unfold frequency_payload. fold fb ref pd1 pd2.
  rewrite (vco_test_spec ref fb Hr Hfb).
  rewrite !nibble_of_divider by lia.
  rewrite Z.shiftl_mul_pow2 by lia. change (2 ^ 4) with 16.
  rewrite (Z.mul_comm (pd1 - 1) 16). reflexivity.
Qed.

Lemma send_hash_frequency_frame_witness :
  let st := mkPLL 224 7 1 2 (S754_zero false) (float_of_int 400) in
  pll_search (float_of_int 400) = Ok st
  /\ fb_divider st <> 0
  /\ send_hash_frequency crc5_sample crc16_sample (float_of_int 400)
       (mkIO [] [] [])
     = (Ok tt,
        mkIO [command_frame crc5_sample 0x51 [0x00; 0x08; 0x50; 0xE0; 0x02; 0x60]]
             [] [LogInfo]).
Proof.
  cbv zeta.
  assert (Hrun : pll_search (float_of_int 400)
                 = Ok (mkPLL 224 7 1 2 (S754_zero false) (float_of_int 400)))
    by (vm_compute; reflexivity).
  assert (Hfb : fb_divider (mkPLL 224 7 1 2 (S754_zero false) (float_of_int 400)) <> 0)
    by (cbn; lia).
  split; [exact Hrun | split; [exact Hfb |]].
  exact (proj1 (send_hash_frequency_frame crc5_sample crc16_sample
                  crc5_sample_u8 (float_of_int 400) _ (mkIO [] [] []) Hrun Hfb)).
Defined.

(** ** The search on targets that are not positive *)

Lemma binary_round_aux_negative mx ex lx :
  not_above_zero (binary_round_aux prec emax true mx ex lx).
Proof.
  unfold binary_round_aux.
  destruct (shr_fexp prec emax mx ex lx) as [mrs' e'].
  destruct (shr_fexp prec emax _ e' loc_Exact) as [mrs'' e''].
  destruct (shr_m mrs''); cbn; auto.
  match goal with |- context [if ?b then _ else _] => destruct b end; exact I.
Qed.

Lemma fmul_positive_l x y :
  is_positive_finite x = true -> not_above_zero y -> not_above_zero (fmul x y).
Proof.
  destruct x as [| | |[] mx ex]; try discriminate. intros _.
  destruct y as [sy|[]| |[] my ey]; cbn; intros H; try contradiction; auto.
  apply binary_round_aux_negative.
Qed.

Lemma fmul_positive_r x y :
  not_above_zero x -> is_positive_finite y = true -> not_above_zero (fmul x y).
Proof.
  destruct y as [| | |[] my ey]; try discriminate. intros H _.
  destruct x as [sx|[]| |[] mx ex]; cbn in *; try contradiction; auto.
  apply binary_round_aux_negative.
Qed.

Lemma fdiv_positive_r x y :
  not_above_zero x -> is_positive_finite y = true -> not_above_zero (fdiv x y).
Proof.
  destruct y as [| | |[] my ey]; try discriminate. intros H _.
  destruct x as [sx|[]| |[] mx ex]; cbn in *; try contradiction; auto.
  destruct (SFdiv_core_binary prec emax (Z.pos mx) ex (Z.pos my) ey)
    as [[mz ez] lz].
  apply binary_round_aux_negative.
Qed.

Lemma round_half_even_nonneg m e : 0 <= round_half_even m e.
Proof.
  unfold round_half_even. destruct e as [|k|k].
  - lia.
  - pose proof (Z.pow_pos_nonneg 2 (Z.pos k)). lia.
  - assert (Hd : 0 < Z.pow_pos 2 k)
      by (rewrite Z.pow_pos_fold; apply Z.pow_pos_nonneg; lia).
    pose proof (Z.div_pos (Z.pos m) (Z.pow_pos 2 k) ltac:(lia) Hd).
    destruct (2 * (Z.pos m mod Z.pow_pos 2 k) ?= Z.pow_pos 2 k);
      [destruct (Z.even _) | |]; lia.
Qed.

Lemma py_round_not_above_zero x fb :
  not_above_zero x -> py_round x = Ok fb -> fb <= 0.
Proof.
  destruct x as [sx|[]| |[] mx ex]; cbn; intros H E;
    try contradiction; try discriminate; inversion E; subst; try lia.
  pose proof (round_half_even_nonneg mx ex). lia.
Qed.

Lemma feedback_not_above_zero target c fb :
  not_above_zero target -> In c pll_candidates ->
  feedback_of target c = Ok fb -> fb <= 0.
Proof.
  intros Ht Hin E.
  assert (Hall : forallb candidate_factors_ok pll_candidates = true)
    by (vm_compute; reflexivity).
  rewrite forallb_forall in Hall. specialize (Hall c Hin).
  unfold candidate_factors_ok in Hall.
  apply andb_true_iff in Hall. destruct Hall as [H1 H2].
  apply (py_round_not_above_zero _ fb) in E; [exact E |].
  apply fdiv_positive_r; [| reflexivity].
  apply fmul_positive_r; [| exact H2].
  apply fmul_positive_l; [exact H1 | exact Ht].
Qed.

(** X10.  For a target frequency that is zero, negative or not a number,
    the divider search never returns a divider set, and
    [send_hash_frequency] writes no frame; for a target of zero the search
    ends normally without one. *)
Theorem pll_search_not_above_zero :
  forall (target : float),
    not_above_zero target ->
    (forall st, pll_search target = Ok st -> fb_divider st = 0)
    /\ (forall crc5 crc16_false,
          (forall data, 0 <= crc5 data < 256) ->
          forall s, tx (snd (send_hash_frequency crc5 crc16_false target s))
                    = tx s)
    /\ (forall sign, pll_search (S754_zero sign) = Ok pll_init).
Proof.
  intros target Ht.
  assert (Hnone : forall st, pll_search target = Ok st -> fb_divider st = 0).
  { intros st Hrun. apply (pll_search_not_found target st Hrun).
    intros c fb Hin (_ & Efb & Hrange & _).
    pose proof (feedback_not_above_zero target c fb Ht Hin Efb). lia. }
  split; [exact Hnone | split].
  - intros crc5 crc16_false H5 s.
    rewrite (send_hash_frequency_run crc5 crc16_false H5 target s).
    cbn [snd tx].
    destruct (pll_search target) as [st| |] eqn:Hrun;
      cbn [frequency_frames]; try apply app_nil_r.
    rewrite (Hnone st eq_refl). apply app_nil_r.
  - intros [|]; vm_compute; reflexivity.
Qed.

Lemma pll_search_not_above_zero_witness :
  let target := float_of_int (-400) in
  let st := mkPLL 0 0 0 0 (float_of_int 10) (float_of_int 200) in
  not_above_zero target
  /\ pll_search target = Ok st
  /\ fb_divider st = 0.
Proof.
  cbv zeta.
  assert (Ht : not_above_zero (float_of_int (-400))) by exact I.
  assert (Hrun : pll_search (float_of_int (-400))
                 = Ok (mkPLL 0 0 0 0 (float_of_int 10) (float_of_int 200)))
    by (vm_compute; reflexivity).
  split; [exact Ht | split; [exact Hrun |]].
  exact (proj1 (pll_search_not_above_zero _ Ht) _ Hrun).
Defined.

(** X11.  A target that is not a number makes the search raise
    [ValueError], an infinite one [OverflowError].  When the search
    raises, [send_init] raises the same exception, and only then: every
    frame up to the four miscellaneous writes was written before, the
    commit frame is not written and nothing is logged. *)
Theorem send_init_search_raises :
  forall (crc5 crc16_false : list Z -> Z),
    (forall data, 0 <= crc5 data < 256) ->
    forall (frequency : float) (e : exn) (expected difficulty : Z) (s : io)
           (responses : list (list Z)) (rest : list (option (list Z))),
      rx s = map Some responses ++ None :: rest ->
      let n := Z.of_nat (count_matching responses) in
      1 <= n <= 256 ->
      pll_search frequency = Raise e ->
      (exists mask,
         get_difficulty_mask difficulty = Ok mask
         /\ send_init crc5 crc16_false frequency expected difficulty s
            = (Raise e,
               mkIO (tx s ++ enumeration_frames crc5 ++ config_frames crc5
                     ++ address_frames crc5 n (256 / n)
                     ++ defaults_frames crc5 mask
                     ++ tuning_frames crc5 n (256 / n)
                     ++ misc_frames crc5)
                    rest (logs s)))
      /\ pll_search S754_nan = Raise ValueError
      /\ (forall sign, pll_search (S754_infinity sign) = Raise OverflowError).
Proof.
  intros crc5 crc16_false H5 frequency e expected difficulty s responses rest
         Hrx n Hn Hrun.
  split; [| split; [vm_compute; reflexivity
                   | intros [|]; vm_compute; reflexivity]].
  destruct (send_init_run crc5 crc16_false H5 frequency expected difficulty s
              responses rest Hrx Hn) as (mask & Hmask & Hinit).
  fold n in Hinit. rewrite Hrun in Hinit.
  cbn [closing_outcome closing_frames closing_logs] in Hinit.
  rewrite !app_nil_r in Hinit.
  exists mask. split; [exact Hmask | exact Hinit].
Qed.

Lemma send_init_search_raises_witness :
  let s := mkIO [] [Some chip_response; None] [] in
  rx s = map Some [chip_response] ++ None :: []
  /\ 1 <= Z.of_nat (count_matching [chip_response]) <= 256
  /\ pll_search S754_nan = Raise ValueError
  /\ fst (send_init crc5_sample crc16_sample S754_nan 1 16 s) = Raise ValueError.
Proof.
  cbv zeta.
  assert (Hrx : rx (mkIO [] [Some chip_response; None] [])
                = map Some [chip_response] ++ None :: []) by reflexivity.
  assert (Hn : 1 <= Z.of_nat (count_matching [chip_response]) <= 256)
    by (vm_compute; split; discriminate).
  assert (Hrun : pll_search S754_nan = Raise ValueError)
    by (vm_compute; reflexivity).
  split; [exact Hrx | split; [exact Hn | split; [exact Hrun |]]].
  destruct (send_init_search_raises crc5_sample crc16_sample crc5_sample_u8
              S754_nan ValueError 1 16 _ _ _ Hrx Hn Hrun)
    as ((mask & _ & E) & _).
  now rewrite E.
Defined.

(** ** [get_difficulty_mask]: what the payload carries *)

Lemma largest_power_of_two_le_unique n p q :
  largest_power_of_two_le n p -> largest_power_of_two_le n q -> p = q.
Proof.
  intros [[a [Ha ->]] Hp] [[b [Hb ->]] Hq].
  assert (Hab : 2 ^ a < 2 ^ (b + 1))
    by (rewrite Z.pow_add_r by lia; change (2 ^ 1) with 2; lia).
  assert (Hba : 2 ^ b < 2 ^ (a + 1))
    by (rewrite Z.pow_add_r by lia; change (2 ^ 1) with 2; lia).
  apply Z.pow_lt_mono_r_iff in Hab; try lia.
  apply Z.pow_lt_mono_r_iff in Hba; try lia.
  replace a with b by lia. reflexivity.
Qed.

Lemma bit_reverse8_involutive b :
  0 <= b < 256 -> bit_reverse8 (bit_reverse8 b) = b.
Proof.
  intros Hb. destruct (reverse_bits_spec b Hb) as (_ & Hr & Hback).
  destruct (reverse_bits_spec _ Hr) as (Hfwd & _).
  congruence.
Qed.

(** The four low bytes of a number make up its low 32 bits. *)
Lemma mask_bytes_sum m :
  mask_byte m 0 + 256 * mask_byte m 1 + 65536 * mask_byte m 2
  + 16777216 * mask_byte m 3
  = m mod 2 ^ 32.
Proof.
  unfold mask_byte.
  change (2 ^ (8 * 0)) with 1. change (2 ^ (8 * 1)) with 256.
  change (2 ^ (8 * 2)) with (256 * 256).
  change (2 ^ (8 * 3)) with (256 * 256 * 256).
  change (2 ^ 32) with (256 * (256 * (256 * 256))).
  rewrite Z.div_1_r.
  rewrite <- !Z.div_div by lia.
  rewrite (Z.rem_mul_r m 256 (256 * (256 * 256))) by lia.
  rewrite (Z.rem_mul_r (m / 256) 256 (256 * 256)) by lia.
  rewrite (Z.rem_mul_r (m / 256 / 256) 256 256) by lia.
  lia.
Qed.

(** The payload for a difficulty of at least 1, with its power of two. *)
Lemma get_difficulty_mask_of d :
  1 <= d ->
  exists p,
    largest_power_of_two_le d p
    /\ get_difficulty_mask d
       = Ok [0x00; 0x14;
             bit_reverse8 (mask_byte (p - 1) 3);
             bit_reverse8 (mask_byte (p - 1) 2);
             bit_reverse8 (mask_byte (p - 1) 1);
             bit_reverse8 (mask_byte (p - 1) 0)].
Proof.
  intros Hd.
  destruct (largest_power_of_two_spec d Hd) as [p [Hrun Hp]].
  exists p. split; [exact Hp |].
  unfold get_difficulty_mask. rewrite Hrun. cbn [bindO].
  apply difficulty_mask_of_power.
  destruct Hp as [[k [Hk ->]] _]. pose proof (Z.pow_pos_nonneg 2 k). lia.
Qed.

(** X12.  The difficulty payload can be read back: mirroring its last four
    bytes and joining them, last byte least significant, gives the low 32
    bits of [p - 1], where [p] is the largest power of two at most the
    difficulty; for a difficulty under 2^32 that is [p - 1] itself. *)
Theorem difficulty_mask_roundtrip :
  forall difficulty, 1 <= difficulty ->
    exists p mask,
      largest_power_of_two_le difficulty p
      /\ get_difficulty_mask difficulty = Ok mask
      /\ decode_difficulty_mask mask = (p - 1) mod 2 ^ 32
      /\ (difficulty < 2 ^ 32 -> decode_difficulty_mask mask = p - 1).
Proof.
  intros d Hd. destruct (get_difficulty_mask_of d Hd) as (p & Hp & Hmask).
  eexists p, _. split; [exact Hp |]. split; [exact Hmask |].
  assert (Hdec : decode_difficulty_mask
                   [0x00; 0x14;
                    bit_reverse8 (mask_byte (p - 1) 3);
                    bit_reverse8 (mask_byte (p - 1) 2);
                    bit_reverse8 (mask_byte (p - 1) 1);
                    bit_reverse8 (mask_byte (p - 1) 0)]
                 = (p - 1) mod 2 ^ 32).
  { unfold decode_difficulty_mask. cbn [nth].
    rewrite !bit_reverse8_involutive by apply mask_byte_range.
    apply mask_bytes_sum. }
  split; [exact Hdec |].
  intros Hsmall. rewrite Hdec. apply Z.mod_small.
  destruct Hp as [[k [Hk ->]] Hle]. pose proof (Z.pow_pos_nonneg 2 k). lia.
Qed.

Lemma difficulty_mask_roundtrip_witness :
  1 <= 1000 /\
  exists p mask,
    largest_power_of_two_le 1000 p
    /\ get_difficulty_mask 1000 = Ok mask
    /\ decode_difficulty_mask mask = (p - 1) mod 2 ^ 32
    /\ (1000 < 2 ^ 32 -> decode_difficulty_mask mask = p - 1).
Proof.
  split; [lia | apply (difficulty_mask_roundtrip 1000); lia].
Defined.

(** X13.  The payload depends on the difficulty only through the largest
    power of two at most it: every difficulty from [p] to [2 * p - 1] gets
    the payload of [p]. *)
Theorem difficulty_mask_plateau :
  forall difficulty p,
    largest_power_of_two_le difficulty p ->
    get_difficulty_mask difficulty = get_difficulty_mask p.
Proof.
  intros d p Hp.
  assert (Hpos : 1 <= p).
  { destruct Hp as [[k [Hk ->]] _]. pose proof (Z.pow_pos_nonneg 2 k). lia. }
  assert (Hd : 1 <= d) by (destruct Hp as [_ Hle]; lia).
  assert (Hpp : largest_power_of_two_le p p)
    by (split; [exact (proj1 Hp) | lia]).
  destruct (get_difficulty_mask_of d Hd) as (q & Hq & ->).
  destruct (get_difficulty_mask_of p Hpos) as (r & Hr & ->).
  rewrite (largest_power_of_two_le_unique d q p Hq Hp).
  rewrite (largest_power_of_two_le_unique p r p Hr Hpp).
  reflexivity.
Qed.

Lemma difficulty_mask_plateau_witness :
  largest_power_of_two_le 31 16
  /\ get_difficulty_mask 31 = get_difficulty_mask 16.
Proof.
  assert (H : largest_power_of_two_le 31 16).
  { split; [exists 4; split; [lia | reflexivity] | lia]. }
  split; [exact H | exact (difficulty_mask_plateau 31 16 H)].
Defined.

(** X14.  From 2^32 on the payload no longer changes: all four mask bytes
    are 0xFF. *)
Theorem difficulty_mask_saturates :
  forall difficulty, 2 ^ 32 <= difficulty ->
    get_difficulty_mask difficulty = Ok [0x00; 0x14; 0xFF; 0xFF; 0xFF; 0xFF].
Proof.
  intros d Hd.
  destruct (get_difficulty_mask_of d ltac:(lia)) as (p & Hp & ->).
  destruct Hp as [[k [Hk ->]] Hle].
  assert (Hk32 : 32 <= k).
  { assert (H : 2 ^ 32 < 2 ^ (k + 1))
      by (rewrite Z.pow_add_r by lia; change (2 ^ 1) with 2; lia).
    apply Z.pow_lt_mono_r_iff in H; lia. }
  assert (Hbyte : forall i, 0 <= i <= 3 -> mask_byte (2 ^ k - 1) i = 255).
  { intros i Hi. unfold mask_byte.
    replace (2 ^ k - 1) with (Z.ones k) by (rewrite Z.ones_equiv; lia).
    rewrite Z.ones_div_pow2 by lia.
    change 256 with (2 ^ 8).
    rewrite Z.ones_mod_pow2 by lia. reflexivity. }
  rewrite !Hbyte by lia. reflexivity.
Qed.

Lemma difficulty_mask_saturates_witness :
  2 ^ 32 <= 2 ^ 40 + 5 /\
  get_difficulty_mask (2 ^ 40 + 5) = Ok [0x00; 0x14; 0xFF; 0xFF; 0xFF; 0xFF].
Proof.
  assert (H : 2 ^ 32 <= 2 ^ 40 + 5) by (vm_compute; discriminate).
  split; [exact H | exact (difficulty_mask_saturates _ H)].
Defined.

(** ** [_reverse_bits] outside the bytes *)

Lemma bin_digits_binary p :
  forall acc, forallb is_binary_digit acc = true ->
              forallb is_binary_digit (bin_digits p acc) = true.
Proof.
  induction p as [p IH | p IH |]; intros acc Hacc; cbn [bin_digits].
  - apply IH. cbn [forallb]. now rewrite Hacc.
  - apply IH. cbn [forallb]. now rewrite Hacc.
  - cbn [forallb]. now rewrite Hacc.
Qed.

Lemma zfill_binary width digits :
  forallb is_binary_digit digits = true ->
  forallb is_binary_digit (zfill width digits) = true.
Proof.
  intros H. unfold zfill. rewrite forallb_app, H, andb_true_r.
  induction (width - length digits)%nat as [|n IH]; [reflexivity | exact IH].
Qed.

Lemma forallb_rev {A} (f : A -> bool) l :
  forallb f l = true -> forallb f (rev l) = true.
Proof.
  rewrite !forallb_forall. intros H x Hx. apply H. now apply in_rev.
Qed.

Lemma int_base2_from_minus digits :
  forall acc, forallb is_binary_digit digits = true ->
              int_base2_from acc (digits ++ ["-"%char]) = Raise ValueError.
Proof.
  induction digits as [|c digits IH]; intros acc H; [reflexivity|].
  cbn [forallb] in H. apply andb_true_iff in H. destruct H as [Hc H].
  cbn [app int_base2_from]. unfold is_binary_digit in Hc.
  destruct (Ascii.eqb c "0"); [now apply IH|].
  destruct (Ascii.eqb c "1"); [now apply IH | discriminate Hc].
Qed.

(** X15.  [_reverse_bits] is defined on the numbers that are not negative
    only: for a negative argument the formatted string carries a minus
    sign, which ends up last after the reversal, and [int] raises
    [ValueError]. *)
Theorem reverse_bits_negative :
  forall byte, byte < 0 -> _reverse_bits byte = Raise ValueError.
Proof.
  intros [|p|p] Hneg; try lia.
  unfold _reverse_bits, format_08b. cbn [rev].
  assert (Hd : forallb is_binary_digit (rev (zfill 7 (bin_digits p []))) = true)
    by (apply forallb_rev, zfill_binary, bin_digits_binary; reflexivity).
  unfold int_base2.
  rewrite (int_base2_from_minus _ 0 Hd).
  destruct (rev (zfill 7 (bin_digits p []))); reflexivity.
Qed.

Lemma reverse_bits_negative_witness :
  -3 < 0 /\ _reverse_bits (-3) = Raise ValueError.
Proof.
  split; [lia | apply (reverse_bits_negative (-3)); lia].
Defined.

(** ** The baud rate commands *)

(** X16.  [set_default_baud] writes one Command frame to register 0x18 of
    all chips and returns 115749; [set_max_baud] writes its raw 11-byte
    buffer and returns 1000000.  Both buffers are frames (sync pair,
    length field that counts the bytes after it, bytes only); neither call
    reads from the transport, logs or raises. *)
Theorem baud_commands :
  forall (crc5 crc16_false : list Z -> Z),
    (forall data, 0 <= crc5 data < 256) ->
    forall (s : io),
      let default_frame :=
        command_frame crc5 0x51 [0x00; 0x18; 0x00; 0x00; 0x7A; 0x31] in
      let max_frame :=
        [0x55; 0xAA; 0x51; 0x09; 0x00; 0x28; 0x11; 0x30; 0x02; 0x00; 0x03] in
      set_default_baud crc5 crc16_false s = (Ok 115749, emit s [default_frame])
      /\ set_max_baud s = (Ok 1000000, emit s [max_frame])
      /\ frame_ok default_frame
      /\ frame_ok max_frame.
Proof.
  intros crc5 crc16_false H5 s default_frame max_frame.
  split; [| split; [| split]].
  - unfold set_default_baud. cbv zeta.
    change (Z.lor (Z.lor TYPE_CMD GROUP_ALL) CMD_WRITE) with 0x51.
    change MISC_CONTROL with 0x18.
    step_send. reflexivity.
  - unfold set_max_baud.
    erewrite bindM_ok by (apply send_simple_run; byte_list). reflexivity.
  - apply command_frame_ok; [exact H5 | lia | byte_list | cbn [length]; lia].
  - split; [reflexivity | split; [reflexivity | byte_list]].
Qed.

Lemma baud_commands_witness :
  set_default_baud crc5_sample crc16_sample (mkIO [] [] [])
  = (Ok 115749,
     mkIO [[0x55; 0xAA; 0x51; 0x09; 0x00; 0x18; 0x00; 0x00; 0x7A; 0x31; 0x15]]
          [] []).
Proof.
  rewrite (proj1 (baud_commands crc5_sample crc16_sample crc5_sample_u8
                    (mkIO [] [] []))).
  vm_compute. reflexivity.
Defined.
